(** * handy-ml: the optimize/satisfy early-stopping monitor and the
      prediction-confidence formula

    A shallow embedding of
    - [scripts/optimize_satisfy_early_stopping.py]: the class
      [OptimizeSatisfyEarlyStopping] and its three methods, and
    - [scripts/prediction_confidence.py]: [binary_classification_confidence],
    followed by the properties the specification states about them. *)

From Stdlib Require Import ZArith QArith Lqa Uint63 Floats.
From stdpp Require Import gmap strings list fin_maps.

Set Warnings "-inexact-float".

(** ** Python values *)

(** The comparisons the monitor applies to scores.  Python dispatches [<] and
    [>=] separately ([__lt__] and [__ge__]), so both are kept: on binary64
    they differ on NaN, on which every comparison is false. *)
Class Score (T : Type) := {
  score_lt : T → T → bool;   (* a < b  *)
  score_ge : T → T → bool    (* a >= b *)
}.

(** Python exceptions, as far as a generator tells them apart.  An exception
    that escapes the body of a generator leaves the generator as it is,
    except a [StopIteration], which leaves it as
    [RuntimeError("generator raised StopIteration")], raised from it
    (PEP 479). *)
Class PyException (E : Type) := {
  is_StopIteration : E → bool;                 (* isinstance(e, StopIteration) *)
  generator_raised_StopIteration : E → E       (* the RuntimeError, from e *)
}.

Definition from_generator {E : Type} `{PyException E} (e : E) : E :=
  if is_StopIteration e then generator_raised_StopIteration e else e.

(** The arithmetic [binary_classification_confidence] uses, with the literals
    of the source: the integers [2] and [1] (converted to the operand's type
    by Python's numeric tower) and the float [0.5]. *)
Class Arith (R : Type) := {
  lit_2 : R;
  lit_1 : R;
  lit_0_5 : R;
  mul : R → R → R;
  sub : R → R → R;
  geb : R → R → bool         (* a >= b *)
}.

(** Python's [float]: IEEE 754 binary64, round to nearest even. *)
#[export] Instance float_Score : Score float := {
  score_lt a b := PrimFloat.ltb a b;
  score_ge a b := PrimFloat.leb b a
}.

#[export] Instance float_Arith : Arith float := {
  lit_2 := 2%float;
  lit_1 := 1%float;
  lit_0_5 := 0.5%float;
  mul := PrimFloat.mul;
  sub := PrimFloat.sub;
  geb a b := PrimFloat.leb b a
}.

(** Exact arithmetic: the rationals, compared up to [Qeq]. *)
Definition Qltb (a b : Q) : bool := negb (Qle_bool b a).

#[export] Instance Q_Score : Score Q := {
  score_lt a b := Qltb a b;
  score_ge a b := Qle_bool b a
}.

#[export] Instance Q_Arith : Arith Q := {
  lit_2 := 2%Q;
  lit_1 := 1%Q;
  lit_0_5 := (1 # 2)%Q;
  mul := Qmult;
  sub := Qminus;
  geb a b := Qle_bool b a
}.

(** ** scripts/prediction_confidence.py *)

Module PredictionConfidence.

Section Confidence.
Context {R : Type} `{Arith R}.

(** The lambda of the source:
    [lambda p: 2 * p - 1 if p >= 0.5 else 1 - 2 * p]. *)
Definition confidence (p : R) : R :=
  if geb p lit_0_5 then sub (mul lit_2 p) lit_1
  else sub lit_1 (mul lit_2 p).

(** [list(map(lambda p: ..., probabilities))] *)
Definition binary_classification_confidence (probabilities : list R) : list R :=
  List.map confidence probabilities.

End Confidence.

(** The binary64 value [k / 1024], exact for [k] up to 1024. *)
Definition dyadic (k : nat) : float :=
  PrimFloat.div (PrimFloat.of_uint63 (Uint63.of_Z (Z.of_nat k))) 1024%float.

End PredictionConfidence.

(** ** scripts/optimize_satisfy_early_stopping.py *)

(** What calling a Python function gives: a value, or a raised exception. *)
Inductive result (E A : Type) : Type :=
  | Return (a : A)
  | Raise (e : E).
Arguments Return {E A} a.
Arguments Raise {E A} e.

Module EarlyStopping.

Section Monitor.
(** [V]: the values a score dictionary holds ([Dict[str, Any]]);
    [T]: the scores the metric functions return;
    [E]: the exceptions they may raise. *)
Context {V T E : Type} `{Score T} `{PyException E}.

(** A dictionary of evaluation scores.  The monitor keeps a reference to the
    last retained one and never writes to it; the caller is taken not to
    mutate a dictionary after passing it in. *)
#[local] Abbreviation snapshot := (gmap string V).

(** A metric is a [Callable] from a score dictionary to a score; applying it
    may raise (a [KeyError] on a missing key, say).  Apart from that it is a
    function of the dictionary: it touches neither the dictionary nor the
    instance. *)
Definition metric : Type := snapshot → result E T.

(** The attributes of an instance.  [satisfy_metrics] is a dictionary keyed
    by function objects; [.items()] walks it in insertion order, so it is
    kept as the list of its items. *)
Record OptimizeSatisfyEarlyStopping : Type := MkOptimizeSatisfyEarlyStopping {
  optimize_metric : metric;
  satisfy_metrics : list (metric * T);
  best_dict : snapshot
}.

(** [__init__]: [satisfy_metrics=None] stands for the empty dictionary and
    [best_dict] starts as [{}]. *)
Definition __init__ (optimize_metric : metric)
    (satisfy_metrics : option (list (metric * T))) : OptimizeSatisfyEarlyStopping :=
  {| optimize_metric := optimize_metric;
     satisfy_metrics := match satisfy_metrics with
                        | None => []
                        | Some items => items
                        end;
     best_dict := ∅ |}.

(** One invocation of a metric function: of [optimize_metric], or of the key
    of the [i]-th item of [satisfy_metrics], on the given dictionary. *)
Inductive call : Type :=
  | CallOptimize (score_dict : snapshot)
  | CallSatisfy (i : nat) (score_dict : snapshot).

(** The instance, and the metric invocations made so far (oldest first). *)
Record world : Type := World {
  self : OptimizeSatisfyEarlyStopping;
  calls : list call
}.

(** Method bodies: they read and write [self], invoke metrics, and either
    return or raise.  A raise keeps the state reached so far. *)
Definition M (A : Type) : Type := world → result E A * world.

#[local] Instance M_ret : MRet M := λ A a w, (Return a, w).
#[local] Instance M_bind : MBind M := λ A B k m w,
  match m w with
  | (Return a, w') => k a w'
  | (Raise e, w') => (Raise e, w')
  end.

Definition get_self : M OptimizeSatisfyEarlyStopping :=
  λ w, (Return (self w), w).

(** [self.best_dict = d] *)
Definition set_best_dict (d : snapshot) : M unit :=
  λ w, (Return tt,
        {| self := {| optimize_metric := optimize_metric (self w);
                      satisfy_metrics := satisfy_metrics (self w);
                      best_dict := d |};
           calls := calls w |}).

(** [f(d)], recorded as the call [c]. *)
Definition invoke (c : call) (f : metric) (d : snapshot) : M T :=
  λ w, (f d, {| self := self w; calls := calls w ++ [c] |}).

(** [d == {}] for a dictionary [d]. *)
Definition is_empty_dict (d : snapshot) : bool := bool_decide (size d = 0).

(** [_metric_decreases]: the operands of [<] are evaluated left to right. *)
Definition _metric_decreases (score_dict : snapshot) : M bool :=
  s ← get_self;
  if is_empty_dict (best_dict s) then mret false
  else
    current ← invoke (CallOptimize score_dict) (optimize_metric s) score_dict;
    best ← invoke (CallOptimize (best_dict s)) (optimize_metric s) (best_dict s);
    mret (score_lt current best).

(** Code that runs in the body of a generator: what it raises reaches the
    consumer of the generator as [from_generator] makes it. *)
Definition in_generator {A : Type} (body : M A) : M A :=
  λ w, match body w with
       | (Return a, w') => (Return a, w')
       | (Raise e, w') => (Raise (from_generator e), w')
       end.

(** [all(satisfy_metric(self.best_dict) >= value for ... in items)]: the
    generator is consumed up to the first false element, and each metric is
    called in the generator's body. *)
Fixpoint all_satisfied (i : nat) (items : list (metric * T)) : M bool :=
  match items with
  | [] => mret true
  | (satisfy_metric, value) :: rest =>
      s ← get_self;
      v ← in_generator
            (invoke (CallSatisfy i (best_dict s)) satisfy_metric (best_dict s));
      if score_ge v value then all_satisfied (S i) rest else mret false
  end.

Definition _metrics_satisfied : M bool :=
  s ← get_self;
  all_satisfied 0 (satisfy_metrics s).

(** Python's [a and b] on booleans: [b] is evaluated only when [a] is true. *)
Definition and_then (a b : M bool) : M bool :=
  x ← a;
  if x : bool then b else mret x.
#[local] Infix "and_then" := and_then (at level 60, right associativity).

(** [evaluate_criteria]: stop when the metric decreased and the metrics are
    satisfied, else retain [score_dict]. *)
Definition evaluate_criteria (score_dict : snapshot) : M bool :=
  stop ← (_metric_decreases score_dict and_then _metrics_satisfied);
  if stop : bool then mret true
  else set_best_dict score_dict;; mret false.

(** A caller evaluating one dictionary per iteration, in order; it collects
    what each call returned or raised and goes on to the next. *)
Fixpoint evaluate_each (score_dicts : list snapshot) (w : world)
    : list (result E bool) * world :=
  match score_dicts with
  | [] => ([], w)
  | d :: rest =>
      let (r, w1) := evaluate_criteria d w in
      let (rs, w2) := evaluate_each rest w1 in
      (r :: rs, w2)
  end.

(** *** Vocabulary of the properties *)

(** The instance as created by [__init__], with no metric invoked yet. *)
Definition fresh (optimize_metric : metric)
    (satisfy_metrics : option (list (metric * T))) : world :=
  {| self := __init__ optimize_metric satisfy_metrics; calls := [] |}.

(** The instance [s] after [s.best_dict = d]. *)
Definition with_best_dict (s : OptimizeSatisfyEarlyStopping) (d : snapshot)
    : OptimizeSatisfyEarlyStopping :=
  {| optimize_metric := optimize_metric s;
     satisfy_metrics := satisfy_metrics s;
     best_dict := d |}.

(** The instance holds a baseline: the guard of [_metric_decreases],
    [self.best_dict == {}], is false. *)
Definition has_baseline (s : OptimizeSatisfyEarlyStopping) : Prop :=
  is_empty_dict (best_dict s) = false.

(** The item's metric returns a score on [d]. *)
Definition defined_on (d : snapshot) (item : metric * T) : Prop :=
  ∃ v, item.1 d = Return v.

(** The item's metric returns a score on [d] that is [>=] its threshold. *)
Definition satisfied_on (d : snapshot) (item : metric * T) : Prop :=
  ∃ v, item.1 d = Return v ∧ score_ge v item.2 = true.

(** What the invocation [c] gives on the instance [s]. *)
Definition call_result (s : OptimizeSatisfyEarlyStopping) (c : call)
    : option (result E T) :=
  match c with
  | CallOptimize d => Some (optimize_metric s d)
  | CallSatisfy i d => (λ item : metric * T, item.1 d) <$> satisfy_metrics s !! i
  end.

Definition returned (s : OptimizeSatisfyEarlyStopping) (c : call) : Prop :=
  ∃ v, call_result s c = Some (Return v).

Definition is_satisfy_call (c : call) : bool :=
  match c with
  | CallSatisfy _ _ => true
  | CallOptimize _ => false
  end.

(** The dictionary a metric was invoked on. *)
Definition call_arg (c : call) : snapshot :=
  match c with
  | CallOptimize d => d
  | CallSatisfy _ d => d
  end.

(** What the caller of [evaluate_criteria] gets when the invocation [c]
    raises [e]: the metrics to satisfy are called in a generator, the metric
    to optimize is not. *)
Definition raised_by (c : call) (e : E) : E :=
  if is_satisfy_call c then from_generator e else e.

(** An execution that made the invocations [cs] and ended in [r]: every
    invocation but a raising last one returned, and [r] raises what that
    last invocation makes it raise. *)
Definition propagates (s : OptimizeSatisfyEarlyStopping) (cs : list call)
    (r : result E bool) : Prop :=
  match r with
  | Return _ => Forall (returned s) cs
  | Raise e => ∃ cs0 c e0, cs = cs0 ++ [c] ∧ Forall (returned s) cs0 ∧
                           call_result s c = Some (Raise e0) ∧
                           e = raised_by c e0
  end.

(** Each score is [<] the next one. *)
Fixpoint strictly_increasing (vs : list T) : Prop :=
  match vs with
  | a :: (b :: _) as rest => score_lt a b = true ∧ strictly_increasing rest
  | _ => True
  end.

(** The value of [all(...)] over [items] with baseline [best], and the
    invocations made on the way, as functions of the baseline alone. *)
Fixpoint all_satisfied_value (best : snapshot) (items : list (metric * T))
    : result E bool :=
  match items with
  | [] => Return true
  | (satisfy_metric, value) :: rest =>
      match satisfy_metric best with
      | Return v =>
          if score_ge v value then all_satisfied_value best rest
          else Return false
      | Raise e => Raise (from_generator e)
      end
  end.

Fixpoint all_satisfied_calls (i : nat) (best : snapshot)
    (items : list (metric * T)) : list call :=
  match items with
  | [] => []
  | (satisfy_metric, value) :: rest =>
      CallSatisfy i best ::
      match satisfy_metric best with
      | Return v =>
          if score_ge v value then all_satisfied_calls (S i) best rest
          else []
      | Raise _ => []
      end
  end.

End Monitor.

End EarlyStopping.

(** ** The criterion of the execution example ([__main__]) *)

Module Example.
Import EarlyStopping.

(** The exceptions of the examples: [x[key]] on a dictionary without [key]
    raises [KeyError], [next] on an exhausted iterator raises
    [StopIteration], and a generator turns the latter into [RuntimeError]. *)
Inductive exn : Type :=
  | KeyError (key : string)
  | StopIteration
  | RuntimeError (message : string) (cause : exn).

#[export] Instance exn_PyException : PyException exn := {
  is_StopIteration e := match e with StopIteration => true | _ => false end;
  generator_raised_StopIteration e := RuntimeError "generator raised StopIteration" e
}.

Section Getitem.
Context {T : Type}.

(** [lambda x: x[key]] *)
Definition getitem (key : string) : @metric T T exn :=
  λ x, match x !! key with
       | Some v => Return v
       | None => Raise (KeyError key)
       end.


(** [lambda x: x.get(key, default)] *)
Definition get_or (key : string) (default : T) : @metric T T exn :=
  λ x, Return (match x !! key with
               | Some v => v
               | None => default
               end).

(** [{"precision": p, "recall": r}] *)
Definition scores (p r : T) : gmap string T :=
  <["recall" := r]> (<["precision" := p]> ∅).
End Getitem.

(** [OptimizeSatisfyEarlyStopping(optimize_metric=lambda x: x["recall"],
        satisfy_metrics={lambda x: x["precision"]: 0.5})] *)
Definition criterion {T : Type} `{Arith T} : @OptimizeSatisfyEarlyStopping T T exn :=
  __init__ (getitem "recall") (Some [(getitem "precision", lit_0_5)]).

(** The instance holding [best] as its baseline, nothing invoked yet. *)
Definition holding {T : Type} `{Arith T} (best : gmap string T) : @world T T exn :=
  {| self := with_best_dict criterion best; calls := [] |}.

(** Four iterations, in exact arithmetic and in binary64:
    recall rises, falls while the baseline's precision is below the
    threshold, and falls again once the baseline's precision is above it. *)
Definition S1 : gmap string Q := scores (6 # 10)%Q (6 # 10)%Q.
Definition S2 : gmap string Q := scores (4 # 10)%Q (7 # 10)%Q.
Definition S3 : gmap string Q := scores (9 # 10)%Q (5 # 10)%Q.
Definition S4 : gmap string Q := scores (3 # 10)%Q (4 # 10)%Q.

Definition F1 : gmap string float := scores 0.6%float 0.6%float.
Definition F2 : gmap string float := scores 0.4%float 0.7%float.
Definition F3 : gmap string float := scores 0.9%float 0.5%float.
Definition F4 : gmap string float := scores 0.3%float 0.4%float.

End Example.

(** ** The loop of the execution example *)

Module TrainingLoop.
Import EarlyStopping.

Section Loop.
Context {V T E : Type} `{Score T} `{PyException E}.

(** [for i in range(MAX_ITER): ...; if criterion.evaluate_criteria(score_dict):
    break], over the score dictionaries that the iterations compute (the
    example takes them from random predictions; [score_dicts] lists those of
    the [MAX_ITER] iterations the loop could run).  It gives the number of the
    last step made, [i + 1]; an exception leaves the loop at once. *)
Fixpoint training_loop (score_dicts : list (gmap string V)) (w : @world V T E)
    : result E nat * @world V T E :=
  match score_dicts with
  | [] => (Return 0, w)
  | score_dict :: rest =>
      match evaluate_criteria score_dict w with
      | (Return true, w1) => (Return 1, w1)
      | (Return false, w1) =>
          match training_loop rest w1 with
          | (Return n, w2) => (Return (S n), w2)
          | (Raise e, w2) => (Raise e, w2)
          end
      | (Raise e, w1) => (Raise e, w1)
      end
  end.

(** The dictionary of the latest call that returned False, [init] if there
    is none. *)
Fixpoint last_retained (init : gmap string V) (score_dicts : list (gmap string V))
    (results : list (result E bool)) : gmap string V :=
  match score_dicts, results with
  | d :: ds, r :: rs =>
      last_retained (match r with Return false => d | _ => init end) ds rs
  | _, _ => init
  end.

(** No score is [<] the one before it. *)
Fixpoint never_decreasing (vs : list T) : Prop :=
  match vs with
  | a :: (b :: _) as rest => score_lt b a = false ∧ never_decreasing rest
  | _ => True
  end.

End Loop.

End TrainingLoop.

(** ** scripts/ordinal_regression.py *)

Module OrdinalRegression.

(** What [torch.tensor] raises on a nested list whose rows differ in
    length. *)
Inductive torch_error : Type :=
  | ValueError.

(** [[1] * label + [0] * (num_labels - label - 1)]: repeating a list a
    negative number of times gives the empty list. *)
Definition ordinal_row (label num_labels : Z) : list Z :=
  replicate (Z.to_nat label) 1%Z ++ replicate (Z.to_nat (num_labels - label - 1)) 0%Z.

(** [torch.tensor(rows)] for a list of lists: the rows must all have the
    length of the first one. *)
Definition torch_tensor {A : Type} (rows : list (list A))
    : result torch_error (list (list A)) :=
  match rows with
  | [] => Return []
  | row :: rest =>
      if forallb (λ r, length r =? length row) rest then Return rows
      else Raise ValueError
  end.

(** [.float()] on an entry; the entries here are 0 and 1, which every float
    format holds exactly. *)
Definition to_float (z : Z) : float := PrimFloat.of_uint63 (Uint63.of_Z z).

Definition encode_ordinal (labels : list Z) (num_labels : Z)
    : result torch_error (list (list float)) :=
  match torch_tensor (List.map (λ label, ordinal_row label num_labels) labels) with
  | Return t => Return (List.map (List.map to_float) t)
  | Raise e => Raise e
  end.

(** The dictionary [decode_ordinal] returns. *)
Record decoded : Type := Decoded {
  prediction : list Z;
  probability : list (list float)
}.

Section Decode.
(** [torch.nn.Sigmoid()(torch.Tensor(.))] on one entry: the library's
    conversion and logistic function, taken as given. *)
Variable sigmoid : float → float.

(** [(probabilities > 0.5).int()] on one entry. *)
Definition binarize (p : float) : Z := if PrimFloat.ltb 0.5 p then 1%Z else 0%Z.

(** [logits] is a two-dimensional array, given by its rows. *)
Definition decode_ordinal (logits : list (list float)) : decoded :=
  let probabilities := List.map (List.map sigmoid) logits in
  let binary_predictions := List.map (List.map binarize) probabilities in
  let predictions := List.map (foldr Z.add 0%Z) binary_predictions in
  {| prediction := predictions; probability := probabilities |}.

End Decode.

(** A sigmoid-shaped function that computes, [1/2 + x / (2 (1 + |x|))], to
    run [decode_ordinal] on examples. *)
Definition softsign_sigmoid (x : float) : float :=
  PrimFloat.add 0.5 (PrimFloat.div x (PrimFloat.mul 2 (PrimFloat.add 1 (PrimFloat.abs x)))).

End OrdinalRegression.

(** ** The docstring of [binary_classification_confidence] *)

Module ConfidenceDocstring.

(** The formula as the docstring has it:
    [if p < 0.5 -> c = 2p - 1, else -> c = 1 - 2p]. *)
Definition docstring_confidence (p : Q) : Q :=
  if Qltb p (1 # 2) then (2 * p - 1)%Q else (1 - 2 * p)%Q.

End ConfidenceDocstring.

(** * Properties of the early-stopping monitor *)

Module EarlyStoppingProps.
Import EarlyStopping.

(** Unfolds one method body down to the state it threads. *)
Ltac run_method :=
  unfold evaluate_criteria, and_then, _metric_decreases, _metrics_satisfied,
    in_generator, get_self, invoke, set_best_dict, mbind, M_bind, mret, M_ret;
  cbn [self calls best_dict optimize_metric satisfy_metrics fst snd].

Section Props.
Context {V T E : Type} `{Score T} `{PyException E}.
#[local] Abbreviation snapshot := (gmap string V).
#[local] Abbreviation monitor := (@OptimizeSatisfyEarlyStopping V T E).
#[local] Abbreviation world := (@world V T E).
Implicit Types (s : monitor) (w : world) (d best : snapshot).
Implicit Types (items : list (@metric V T E * T)) (cs : list (@call V)).

(** *** The guard [best_dict == {}] *)

Lemma is_empty_dict_true d : is_empty_dict d = true ↔ d = ∅.
Proof.
  unfold is_empty_dict. rewrite bool_decide_eq_true.
  apply map_size_empty_iff.
Qed.

Lemma is_empty_dict_false d : is_empty_dict d = false ↔ d ≠ ∅.
Proof.
  rewrite <- is_empty_dict_true. destruct (is_empty_dict d); split; congruence.
Qed.

(** *** The generator under [all] *)

(** [all_satisfied] leaves the instance alone; its value and its
    invocations are those computed from the baseline. *)
Lemma all_satisfied_eq items : ∀ i w,
  all_satisfied i items w =
    (all_satisfied_value (best_dict (self w)) items,
     {| self := self w;
        calls := calls w ++ all_satisfied_calls i (best_dict (self w)) items |}).
Proof.
  induction items as [|[f value] rest IH]; intros i w.
  - cbn. unfold mret, M_ret. rewrite app_nil_r. by destruct w.
  - cbn [all_satisfied all_satisfied_value all_satisfied_calls]. run_method.
    destruct (f (best_dict (self w))) as [v|e]; [|done].
    destruct (score_ge v value); [|done].
    rewrite IH. cbn [self calls]. by rewrite <- app_assoc.
Qed.

Lemma all_satisfied_value_true best items :
  all_satisfied_value best items = Return true ↔ Forall (satisfied_on best) items.
Proof.
  induction items as [|[f value] rest IH]; cbn [all_satisfied_value].
  - split; [constructor | done].
  - rewrite Forall_cons, <- IH. unfold satisfied_on at 1. cbn [fst snd].
    destruct (f best) as [v|e].
    + destruct (score_ge v value) eqn:Hge.
      * split; [intros Hr; split; [by exists v | done] | by intros [_ ?]].
      * split; [done | intros [(v' & [= <-] & ?) _]; congruence].
    + split; [done | by intros [(v' & ? & _) _]].
Qed.

Lemma all_satisfied_value_defined best items :
  Forall (defined_on best) items → ∃ b, all_satisfied_value best items = Return b.
Proof.
  induction 1 as [|[f value] rest (v & Hv) _ IH]; cbn [all_satisfied_value].
  - by exists true.
  - cbn in Hv. rewrite Hv. destruct (score_ge v value); [done | by exists false].
Qed.

Lemma all_satisfied_calls_on_best i best items :
  Forall (λ c, is_satisfy_call c = true ∧ call_arg c = best)
         (all_satisfied_calls i best items).
Proof.
  revert i. induction items as [|[f value] rest IH]; intros i;
    cbn [all_satisfied_calls]; [constructor|].
  constructor; [done|].
  destruct (f best); [|constructor].
  destruct (score_ge _ _); [apply IH | constructor].
Qed.

Lemma propagates_cons s c cs r :
  returned s c → propagates s cs r → propagates s (c :: cs) r.
Proof.
  intros Hc. destruct r as [b|e]; cbn.
  - by constructor.
  - intros (cs0 & c' & e0 & -> & Hcs0 & Hc' & He).
    exists (c :: cs0), c', e0. split; [done|]. split; [by constructor | done].
Qed.

Lemma returned_optimize s d a :
  optimize_metric s d = Return a → returned s (CallOptimize d).
Proof. intros Hd. exists a. cbn. by rewrite Hd. Qed.

Lemma raised_optimize s d e :
  optimize_metric s d = Raise e → call_result s (CallOptimize d) = Some (Raise e).
Proof. intros Hd. cbn. by rewrite Hd. Qed.

Lemma propagates_raise_now s c e :
  call_result s c = Some (Raise e) → propagates s [c] (Raise (raised_by c e)).
Proof. intros Hc. exists [], c, e. by repeat split. Qed.

(** The invocations of the generator end at the first one that raises, when
    [items] is the tail of [satisfy_metrics] that starts at index [i]. *)
Lemma all_satisfied_propagates s best items : ∀ i,
  (∀ k item, items !! k = Some item → satisfy_metrics s !! (i + k) = Some item) →
  propagates s (all_satisfied_calls i best items) (all_satisfied_value best items).
Proof.
  induction items as [|[f value] rest IH]; intros i Hitems;
    cbn [all_satisfied_calls all_satisfied_value]; [by constructor|].
  assert (Hc : call_result s (CallSatisfy i best) = Some (f best)).
  { cbn. specialize (Hitems 0 (f, value) eq_refl).
    rewrite Nat.add_0_r in Hitems. by rewrite Hitems. }
  destruct (f best) as [v|e] eqn:Hf.
  - destruct (score_ge v value).
    + apply propagates_cons; [by exists v|]. apply IH.
      intros k item Hk. specialize (Hitems (S k) item Hk).
      by replace (S i + k) with (i + S k) by lia.
    + constructor; [by exists v | constructor].
  - by apply (propagates_raise_now s (CallSatisfy i best) e).
Qed.

(** *** One call of [evaluate_criteria], case by case *)

(** No baseline held: nothing is invoked, [d] is retained. *)
Lemma evaluate_no_baseline w d :
  is_empty_dict (best_dict (self w)) = true →
  evaluate_criteria d w =
    (Return false, {| self := with_best_dict (self w) d; calls := calls w |}).
Proof. intros Hempty. run_method. by rewrite Hempty. Qed.

(** The metric to optimize raises on the current dictionary. *)
Lemma evaluate_current_raises w d e :
  has_baseline (self w) →
  optimize_metric (self w) d = Raise e →
  evaluate_criteria d w =
    (Raise e, {| self := self w; calls := calls w ++ [CallOptimize d] |}).
Proof. intros Hb Hd. run_method. by rewrite Hb, Hd. Qed.

(** The metric to optimize raises on the baseline. *)
Lemma evaluate_baseline_raises w d a e :
  has_baseline (self w) →
  optimize_metric (self w) d = Return a →
  optimize_metric (self w) (best_dict (self w)) = Raise e →
  evaluate_criteria d w =
    (Raise e, {| self := self w;
                 calls := (calls w ++ [CallOptimize d])
                            ++ [CallOptimize (best_dict (self w))] |}).
Proof. intros Hb Hd Hbest. run_method. by rewrite Hb, Hd, Hbest. Qed.

(** The metric did not decrease: [d] is retained and no metric to satisfy
    is invoked. *)
Lemma evaluate_no_decrease w d a b :
  has_baseline (self w) →
  optimize_metric (self w) d = Return a →
  optimize_metric (self w) (best_dict (self w)) = Return b →
  score_lt a b = false →
  evaluate_criteria d w =
    (Return false,
     {| self := with_best_dict (self w) d;
        calls := (calls w ++ [CallOptimize d])
                   ++ [CallOptimize (best_dict (self w))] |}).
Proof. intros Hb Hd Hbest Hlt. run_method. by rewrite Hb, Hd, Hbest, Hlt. Qed.

(** The metric decreased: the outcome is that of [all(...)] on the
    baseline. *)
Lemma evaluate_decrease w d a b :
  has_baseline (self w) →
  optimize_metric (self w) d = Return a →
  optimize_metric (self w) (best_dict (self w)) = Return b →
  score_lt a b = true →
  evaluate_criteria d w =
    let best := best_dict (self w) in
    let r := all_satisfied_value best (satisfy_metrics (self w)) in
    (r,
     {| self := match r with
                | Return false => with_best_dict (self w) d
                | _ => self w
                end;
        calls := ((calls w ++ [CallOptimize d]) ++ [CallOptimize best])
                   ++ all_satisfied_calls 0 best (satisfy_metrics (self w)) |}).
Proof.
  intros Hb Hd Hbest Hlt. run_method. rewrite Hb, Hd, Hbest, Hlt.
  rewrite all_satisfied_eq. cbn [self calls].
  by destruct (all_satisfied_value _ _) as [[|]|e].
Qed.

(** The five ways a call of [evaluate_criteria d] on [w] can go; each case
    comes with the equation [Heval] for the call. *)
Ltac evaluate_cases w d :=
  let a := fresh "a" in
  let b := fresh "b" in
  let e := fresh "e" in
  destruct (is_empty_dict (best_dict (self w))) eqn:Hbase;
  [ pose proof (evaluate_no_baseline w d Hbase) as Heval
  | destruct (optimize_metric (self w) d) as [a|e] eqn:Hcur;
    [ destruct (optimize_metric (self w) (best_dict (self w))) as [b|e] eqn:Hbest;
      [ destruct (score_lt a b) eqn:Hlt;
        [ pose proof (evaluate_decrease w d a b Hbase Hcur Hbest Hlt) as Heval
        | pose proof (evaluate_no_decrease w d a b Hbase Hcur Hbest Hlt) as Heval ]
      | pose proof (evaluate_baseline_raises w d a e Hbase Hcur Hbest) as Heval ]
    | pose proof (evaluate_current_raises w d e Hbase Hcur) as Heval ] ].

(** *** The stopping rule *)

(** C1. On an instance that holds a baseline, with the metrics returning
    scores where they are applied (the metric to optimize on [current] and on
    the baseline; the metrics to satisfy on the baseline, which matters only
    if the optimized metric decreased), [evaluate_criteria current] returns
    True exactly when [optimize_metric(current) < optimize_metric(baseline)]
    and every metric to satisfy, applied to the baseline (not to [current]),
    is [>=] its threshold.  When it returns True the instance is unchanged;
    otherwise it returns False and the baseline becomes [current]. *)
Theorem evaluate_criteria_stops_iff w (current : snapshot) (a b : T) :
  has_baseline (self w) →
  optimize_metric (self w) current = Return a →
  optimize_metric (self w) (best_dict (self w)) = Return b →
  (score_lt a b = true →
   Forall (defined_on (best_dict (self w))) (satisfy_metrics (self w))) →
  ∃ stop w',
    evaluate_criteria current w = (Return stop, w') ∧
    (stop = true ↔
       score_lt a b = true ∧
       Forall (satisfied_on (best_dict (self w))) (satisfy_metrics (self w))) ∧
    self w' = if stop then self w else with_best_dict (self w) current.
Proof.
  intros Hb Hcur Hbest Hdef.
  destruct (score_lt a b) eqn:Hlt.
  - rewrite (evaluate_decrease w current a b Hb Hcur Hbest Hlt). cbn zeta.
    destruct (all_satisfied_value_defined _ _ (Hdef eq_refl)) as [stop Hstop].
    rewrite Hstop. eexists stop, _. split; [reflexivity|]. split.
    + rewrite <- all_satisfied_value_true, Hstop.
      split; [by intros -> | by intros [_ [= ->]]].
    + by destruct stop.
  - rewrite (evaluate_no_decrease w current a b Hb Hcur Hbest Hlt).
    eexists false, _. split; [reflexivity|]. split; [|done].
    split; [done | by intros [? _]].
Qed.

(** C2. The first call on a freshly constructed instance returns False and
    retains the dictionary it was given, whatever the dictionary, the metric
    to optimize and the metrics to satisfy are: no metric is invoked, so
    one that would raise has no occasion to. *)
Theorem first_call_returns_false (optimize : @metric V T E)
    (satisfy : option (list (@metric V T E * T))) (d : snapshot) :
  evaluate_criteria d (fresh optimize satisfy) =
    (Return false,
     {| self := with_best_dict (__init__ optimize satisfy) d; calls := [] |}).
Proof. by apply evaluate_no_baseline. Qed.

(** C8. With an empty set of metrics to satisfy, [_metrics_satisfied] is
    True whatever the baseline, and on an instance holding a baseline
    [evaluate_criteria current] returns True exactly when
    [optimize_metric(current) < optimize_metric(baseline)]. *)
Theorem empty_satisfy_set_stops_iff_decrease (optimize : @metric V T E)
    (best : snapshot) cs :
  let w := {| self := {| optimize_metric := optimize;
                         satisfy_metrics := [];
                         best_dict := best |};
              calls := cs |} in
  _metrics_satisfied w = (Return true, w) ∧
  ∀ (current : snapshot) (a b : T),
    best ≠ ∅ →
    optimize current = Return a →
    optimize best = Return b →
    ∃ w', evaluate_criteria current w = (Return (score_lt a b), w') ∧
          self w' = if score_lt a b then self w
                    else with_best_dict (self w) current.
Proof.
  intros w. split.
  - unfold _metrics_satisfied, get_self, mbind, M_bind.
    rewrite all_satisfied_eq. cbn. by rewrite app_nil_r.
  - intros current a b Hbest Hcur Hbase.
    apply is_empty_dict_false in Hbest.
    destruct (score_lt a b) eqn:Hlt.
    + rewrite (evaluate_decrease w current a b Hbest Hcur Hbase Hlt).
      cbn. eauto.
    + rewrite (evaluate_no_decrease w current a b Hbest Hcur Hbase Hlt).
      eauto.
Qed.

(** *** What a call leaves behind *)

(** The invocations of one call are appended to the earlier ones, the call
    raises only through a raising last invocation, and it either leaves the
    instance alone or returns False having retained [d]. *)
Lemma evaluate_criteria_frame w d :
  ∃ cs,
    calls (evaluate_criteria d w).2 = calls w ++ cs ∧
    propagates (self w) cs (evaluate_criteria d w).1 ∧
    (self (evaluate_criteria d w).2 = self w ∨
     (evaluate_criteria d w).1 = Return false ∧
     self (evaluate_criteria d w).2 = with_best_dict (self w) d).
Proof.
  evaluate_cases w d; rewrite Heval; cbn [fst snd self calls].
  - exists []. rewrite app_nil_r. split; [done|]. split; [by constructor | auto].
  - exists (CallOptimize d :: CallOptimize (best_dict (self w)) ::
              all_satisfied_calls 0 (best_dict (self w)) (satisfy_metrics (self w))).
    split; [by rewrite <- !app_assoc|]. split.
    + apply propagates_cons; [by eapply returned_optimize|].
      apply propagates_cons; [by eapply returned_optimize|].
      by apply all_satisfied_propagates.
    + destruct (all_satisfied_value _ _) as [[|]|]; auto.
  - exists [CallOptimize d; CallOptimize (best_dict (self w))].
    split; [by rewrite <- !app_assoc|]. split; [|auto].
    repeat constructor; by eapply returned_optimize.
  - exists [CallOptimize d; CallOptimize (best_dict (self w))].
    split; [by rewrite <- !app_assoc|]. split; [|auto].
    apply propagates_cons; [by eapply returned_optimize|].
    by apply (propagates_raise_now _ (CallOptimize _) e), raised_optimize.
  - exists [CallOptimize d]. split; [done|]. split; [|auto].
    by apply (propagates_raise_now _ (CallOptimize d) e), raised_optimize.
Qed.

(** What a call returns and what it leaves in the instance depend on the
    instance only, not on the invocations recorded before. *)
Lemma evaluate_criteria_same_instance w1 w2 d :
  self w1 = self w2 →
  (evaluate_criteria d w1).1 = (evaluate_criteria d w2).1 ∧
  self (evaluate_criteria d w1).2 = self (evaluate_criteria d w2).2.
Proof.
  intros Hs. evaluate_cases w1 d; rewrite Heval; clear Heval; rewrite Hs in *.
  - by rewrite (evaluate_no_baseline w2 d).
  - by rewrite (evaluate_decrease w2 d a b).
  - by rewrite (evaluate_no_decrease w2 d a b).
  - by rewrite (evaluate_baseline_raises w2 d a e).
  - by rewrite (evaluate_current_raises w2 d e).
Qed.

(** C3. When [evaluate_criteria] returns True the instance, and so the
    baseline, is as it was before the call; the next call therefore returns
    and retains what it would have without the stopped call, comparing and
    checking satisfaction against the same baseline.  A further call with any
    dictionary whose optimized metric is again below that of the baseline
    returns True again and again changes nothing: the metric to optimize is
    applied to the new dictionary, and every other invocation is on the
    frozen baseline. *)
Theorem stop_keeps_baseline_frozen w (current : snapshot) w' :
  evaluate_criteria current w = (Return true, w') →
  self w' = self w ∧
  (∀ next : snapshot,
     (evaluate_criteria next w').1 = (evaluate_criteria next w).1 ∧
     self (evaluate_criteria next w').2 = self (evaluate_criteria next w).2) ∧
  ∀ (again : snapshot) (a b : T),
    optimize_metric (self w) again = Return a →
    optimize_metric (self w) (best_dict (self w)) = Return b →
    score_lt a b = true →
    ∃ w'' cs,
      evaluate_criteria again w' = (Return true, w'') ∧
      self w'' = self w ∧
      calls w'' = calls w' ++ CallOptimize again :: cs ∧
      Forall (λ c, call_arg c = best_dict (self w)) cs.
Proof.
  intros Hstop.
  assert (Hinv : has_baseline (self w) ∧ self w' = self w ∧
                 all_satisfied_value (best_dict (self w))
                   (satisfy_metrics (self w)) = Return true).
  { evaluate_cases w current; rewrite Heval in Hstop; try discriminate.
    cbn zeta in Hstop.
    destruct (all_satisfied_value _ _) as [[|]|] eqn:Hall; try discriminate.
    injection Hstop as <-. done. }
  destruct Hinv as (Hb & Hself & Hall). split; [done|].
  split; [intros next; by apply evaluate_criteria_same_instance|].
  intros again a b Hagain Hbest Hlt.
  rewrite <- Hself in Hb, Hagain, Hbest, Hall.
  rewrite (evaluate_decrease w' again a b Hb Hagain Hbest Hlt). cbn zeta.
  rewrite Hall, Hself. eexists _, _. split; [reflexivity|].
  cbn [self calls]. split; [done|]. rewrite <- !app_assoc. split; [reflexivity|].
  constructor; [done|].
  eapply Forall_impl; [apply all_satisfied_calls_on_best | by intros c [_ ?]].
Qed.


(** C9. The invocations of a call are those of the metric to optimize
    followed by those of the metrics to satisfy, and a metric to satisfy is
    invoked only once [optimize_metric(d) < optimize_metric(baseline)] has
    come out true.  While the stored baseline is the empty dictionary no
    metric at all is invoked and the call returns False; and when the
    optimized metric did not decrease the call returns False whatever the
    metrics to satisfy would do on the baseline. *)
Theorem satisfy_invoked_only_after_decrease w (d : snapshot) :
  ∃ pre post,
    calls (evaluate_criteria d w).2 = calls w ++ pre ++ post ∧
    Forall (λ c, is_satisfy_call c = false) pre ∧
    Forall (λ c, is_satisfy_call c = true) post ∧
    (post ≠ [] →
       has_baseline (self w) ∧
       pre = [CallOptimize d; CallOptimize (best_dict (self w))] ∧
       ∃ a b, optimize_metric (self w) d = Return a ∧
              optimize_metric (self w) (best_dict (self w)) = Return b ∧
              score_lt a b = true) ∧
    (best_dict (self w) = ∅ →
       pre = [] ∧ post = [] ∧ (evaluate_criteria d w).1 = Return false) ∧
    (∀ a b, optimize_metric (self w) d = Return a →
            optimize_metric (self w) (best_dict (self w)) = Return b →
            score_lt a b = false →
            post = [] ∧ (evaluate_criteria d w).1 = Return false).
Proof.
  evaluate_cases w d; rewrite Heval; cbn [fst snd self calls];
    try apply is_empty_dict_true in Hbase as Hempty;
    try apply is_empty_dict_false in Hbase as Hnonempty.
  - exists [], []. rewrite app_nil_r. repeat split; try done; by constructor.
  - exists [CallOptimize d; CallOptimize (best_dict (self w))],
           (all_satisfied_calls 0 (best_dict (self w)) (satisfy_metrics (self w))).
    split; [by rewrite <- !app_assoc|].
    split; [by repeat constructor|].
    split; [eapply Forall_impl; [apply all_satisfied_calls_on_best | by intros c [? _]]|].
    split; [intros _; split; [done|]; split; [done|]; by exists a, b|].
    split; [done|]. intros a' b' ? ? ?. congruence.
  - exists [CallOptimize d; CallOptimize (best_dict (self w))], [].
    split; [by rewrite <- !app_assoc|].
    split; [by repeat constructor|]. split; [constructor|]. by repeat split.
  - exists [CallOptimize d; CallOptimize (best_dict (self w))], [].
    split; [by rewrite <- !app_assoc|].
    split; [by repeat constructor|]. split; [constructor|].
    repeat split; try done. all: intros; congruence.
  - exists [CallOptimize d], [].
    split; [done|].
    split; [by repeat constructor|]. split; [constructor|].
    repeat split; try done. all: intros; congruence.
Qed.

(** *** Sequences of calls *)

Lemma evaluate_each_cons d ds w :
  evaluate_each (d :: ds) w =
    ((evaluate_criteria d w).1 :: (evaluate_each ds (evaluate_criteria d w).2).1,
     (evaluate_each ds (evaluate_criteria d w).2).2).
Proof.
  change (evaluate_each (d :: ds) w) with
    (let (r, w1) := evaluate_criteria d w in
     let (rs, w2) := evaluate_each ds w1 in (r :: rs, w2)).
  destruct (evaluate_criteria d w) as [r w1]. cbn [fst snd].
  by destruct (evaluate_each ds w1).
Qed.

(** C6, for a non-empty first dictionary.  If [A] is not the empty
    dictionary, [optimize_metric(B) < optimize_metric(A)] and [A] satisfies
    every threshold, then on a fresh instance [evaluate_criteria(A)] returns
    False and [evaluate_criteria(B)] then returns True. *)
Theorem decrease_after_satisfying_baseline_stops (optimize : @metric V T E)
    (satisfy : option (list (@metric V T E * T))) (A B : snapshot) (a b : T) :
  A ≠ ∅ →
  optimize A = Return a →
  optimize B = Return b →
  score_lt b a = true →
  Forall (satisfied_on A) (satisfy_metrics (__init__ optimize satisfy)) →
  (evaluate_each [A; B] (fresh optimize satisfy)).1 = [Return false; Return true].
Proof.
  intros HA Ha Hb Hlt Hsat. apply is_empty_dict_false in HA.
  rewrite !evaluate_each_cons. cbn [fst snd evaluate_each].
  unfold fresh. rewrite evaluate_no_baseline by done. cbn [fst snd]. do 2 f_equal.
  rewrite (evaluate_decrease _ B b a); [|done..]. cbn.
  apply all_satisfied_value_true in Hsat. cbn in Hsat. by rewrite Hsat.
Qed.

(** The metrics are never reassigned. *)
Lemma evaluate_criteria_metrics w d :
  optimize_metric (self (evaluate_criteria d w).2) = optimize_metric (self w) ∧
  satisfy_metrics (self (evaluate_criteria d w).2) = satisfy_metrics (self w).
Proof.
  destruct (evaluate_criteria_frame w d) as (_ & _ & _ & [->|[_ ->]]); done.
Qed.

Lemma evaluate_each_metrics ds : ∀ w,
  optimize_metric (self (evaluate_each ds w).2) = optimize_metric (self w) ∧
  satisfy_metrics (self (evaluate_each ds w).2) = satisfy_metrics (self w).
Proof.
  induction ds as [|d ds IH]; intros w; [done|].
  rewrite evaluate_each_cons. cbn [snd].
  destruct (IH (evaluate_criteria d w).2) as [-> ->].
  apply evaluate_criteria_metrics.
Qed.

(** A baseline is given up only for a dictionary that is retained, so it
    stays as long as the dictionaries passed in are not empty. *)
Lemma evaluate_criteria_keeps_baseline w d :
  has_baseline (self w) → d ≠ ∅ → has_baseline (self (evaluate_criteria d w).2).
Proof.
  intros Hb Hd.
  destruct (evaluate_criteria_frame w d) as (_ & _ & _ & [->|[_ ->]]); [done|].
  by apply is_empty_dict_false.
Qed.

Lemma evaluate_each_keeps_baseline ds : ∀ w,
  has_baseline (self w) → Forall (λ x, x ≠ ∅) ds →
  has_baseline (self (evaluate_each ds w).2).
Proof.
  induction ds as [|d ds IH]; intros w Hb Hds; [done|].
  apply Forall_cons in Hds as [Hd Hds].
  rewrite evaluate_each_cons. cbn [snd].
  apply IH; [|done]. by apply evaluate_criteria_keeps_baseline.
Qed.

(** With a baseline held, a call starts on the comparison: it applies the
    metric to optimize to [d] and, if that returns, to the baseline. *)
Lemma evaluate_criteria_compares w d :
  has_baseline (self w) →
  ∃ cs,
    calls (evaluate_criteria d w).2 = calls w ++ CallOptimize d :: cs ∧
    ∀ a, optimize_metric (self w) d = Return a →
         ∃ cs', cs = CallOptimize (best_dict (self w)) :: cs'.
Proof.
  intros Hb. unfold has_baseline in Hb.
  evaluate_cases w d; [congruence|..]; rewrite Heval; cbn [snd calls];
    rewrite <- ?app_assoc; (eexists; split; [reflexivity|]); intros; eauto.
  congruence.
Qed.

(** C4, for non-empty dictionaries.  The instance holds no baseline when
    created.  If the first dictionary passed to [evaluate_criteria] is not
    empty the instance holds a baseline afterwards, and it keeps holding one
    over all later calls as long as their dictionaries are not empty; each
    of these later calls takes the comparison branch: it applies the metric
    to optimize to its dictionary and then, if that returned, to the
    baseline held. *)
Theorem nonempty_snapshots_keep_baseline (optimize : @metric V T E)
    (satisfy : option (list (@metric V T E * T)))
    (d : snapshot) (ds : list snapshot) :
  d ≠ ∅ →
  Forall (λ x, x ≠ ∅) ds →
  let w1 := (evaluate_criteria d (fresh optimize satisfy)).2 in
  ¬ has_baseline (self (fresh optimize satisfy)) ∧
  has_baseline (self w1) ∧
  ∀ k (x : snapshot), ds !! k = Some x →
    let wk := (evaluate_each (take k ds) w1).2 in
    has_baseline (self wk) ∧
    has_baseline (self (evaluate_criteria x wk).2) ∧
    ∃ cs,
      calls (evaluate_criteria x wk).2 = calls wk ++ CallOptimize x :: cs ∧
      ∀ a, optimize x = Return a →
           ∃ cs', cs = CallOptimize (best_dict (self wk)) :: cs'.
Proof.
  intros Hd Hds w1.
  assert (Hw1 : has_baseline (self w1)).
  { subst w1. unfold fresh. rewrite evaluate_no_baseline by done.
    by apply is_empty_dict_false. }
  split; [by intros [=]|]. split; [done|].
  intros k x Hk wk.
  assert (Hwk : has_baseline (self wk)).
  { apply evaluate_each_keeps_baseline; [done|]. by apply Forall_take. }
  split; [done|]. split.
  - apply evaluate_criteria_keeps_baseline; [done|].
    rewrite Forall_forall in Hds. eapply Hds, list_elem_of_lookup_2, Hk.
  - destruct (evaluate_criteria_compares wk x Hwk) as (cs & Hcalls & Hcs).
    exists cs. split; [done|]. intros a Ha. apply (Hcs a).
    subst wk. destruct (evaluate_each_metrics (take k ds) w1) as [-> _].
    subst w1. by destruct (evaluate_criteria_metrics (fresh optimize satisfy) d) as [-> _].
Qed.

(** With an asymmetric [<], a call whose dictionary scores above the
    baseline's, or that finds no baseline, returns False; along strictly
    increasing scores this holds call after call. *)
Lemma increasing_from ds : ∀ (vs : list T) w,
  (∀ a b : T, score_lt a b = true → score_lt b a = false) →
  Forall2 (λ d v, optimize_metric (self w) d = Return v) ds vs →
  strictly_increasing vs →
  (∀ v, head vs = Some v → has_baseline (self w) →
        ∃ p, optimize_metric (self w) (best_dict (self w)) = Return p ∧
             score_lt p v = true) →
  (evaluate_each ds w).1 = replicate (length ds) (Return false).
Proof.
  induction ds as [|d ds IH]; intros vs w Hasym Hvs Hinc Hinv; [done|].
  inversion Hvs as [|? v ? vs' Hd Hvs']; subst.
  rewrite evaluate_each_cons. cbn [fst length replicate].
  assert (Hstep : evaluate_criteria d w =
                    (Return false,
                     {| self := with_best_dict (self w) d;
                        calls := calls (evaluate_criteria d w).2 |})).
  { destruct (is_empty_dict (best_dict (self w))) eqn:Hbase.
    - by rewrite evaluate_no_baseline.
    - destruct (Hinv v eq_refl Hbase) as (p & Hp & Hlt).
      by rewrite (evaluate_no_decrease w d v p Hbase Hd Hp (Hasym _ _ Hlt)). }
  rewrite Hstep. cbn [fst snd]. f_equal.
  apply (IH vs'); cbn [self optimize_metric best_dict]; [done..| |].
  - destruct vs'; [done|]. apply Hinc.
  - intros v' Hv' _. exists v. split; [done|].
    destruct vs' as [|v'' vs'']; [done|]. injection Hv' as ->. apply Hinc.
Qed.

(** C7. Over a finite sequence of dictionaries whose optimized scores are
    strictly increasing, evaluated in order on a fresh instance, no call
    returns True: each one returns False, whatever the metrics to satisfy
    are.  ([<] is taken to be asymmetric, as it is on numbers.) *)
Theorem strictly_increasing_never_stops (optimize : @metric V T E)
    (satisfy : option (list (@metric V T E * T)))
    (ds : list snapshot) (vs : list T) :
  (∀ a b : T, score_lt a b = true → score_lt b a = false) →
  Forall2 (λ d v, optimize d = Return v) ds vs →
  strictly_increasing vs →
  (evaluate_each ds (fresh optimize satisfy)).1 =
    replicate (length ds) (Return false).
Proof.
  intros Hasym Hvs Hinc. apply (increasing_from ds vs); [done..|].
  by intros v _ [=].
Qed.

End Props.

End EarlyStoppingProps.

(** * The example criterion, run *)

Module ExampleProps.
Import EarlyStopping Example EarlyStoppingProps.

Lemma Qltb_asym (a b : Q) : Qltb a b = true → Qltb b a = false.
Proof.
  unfold Qltb. rewrite negb_true_iff, negb_false_iff, Qle_bool_iff.
  intros Hba. destruct (Qlt_le_dec b a) as [Hlt|Hle]; [|done].
  apply Qlt_le_weak, Qle_bool_iff in Hlt. congruence.
Qed.

(** [<] on binary64 is asymmetric too, NaN included. *)
Lemma SFltb_asym (x y : spec_float) : SFltb x y = true → SFltb y x = false.
Proof.
  unfold SFltb, SFcompare.
  destruct x as [sx|sx| |sx mx ex], y as [sy|sy| |sy my ey];
    try destruct sx; try destruct sy; try done.
  all: change (PosDef.Pos.compare_cont Eq) with Pos.compare.
  all: rewrite (Z.compare_antisym ex ey), (Pos.compare_antisym mx my).
  all: destruct (ex ?= ey)%Z; cbn; try done.
  all: destruct (mx ?= my)%positive; cbn; done.
Qed.

Lemma float_lt_asym (a b : float) :
  score_lt a b = true → score_lt b a = false.
Proof. cbn. rewrite !ltb_spec. apply SFltb_asym. Qed.

(** So on float scores that increase strictly no call returns True. *)
Lemma binary64_increasing_never_stops {V E : Type} `{PyException E}
    (optimize : @metric V float E) (satisfy : option (list (@metric V float E * float)))
    (ds : list (gmap string V)) (vs : list float) :
  Forall2 (λ d v, optimize d = Return v) ds vs →
  strictly_increasing vs →
  (evaluate_each ds (fresh optimize satisfy)).1 = replicate (length ds) (Return false).
Proof.
  intros Hvs Hinc. apply (increasing_from ds vs); [apply float_lt_asym|done..|].
  by intros v _ [=].
Qed.

(** The run traced in the specification: continue, continue, continue (the
    recall fell but the baseline's precision was 0.4), stop. *)
Example scenario_exact :
  (evaluate_each [S1; S2; S3; S4] (fresh (getitem "recall")
     (Some [(getitem "precision", (1 # 2)%Q)]))).1
  = [Return false; Return false; Return false; Return true].
Proof. vm_compute. reflexivity. Qed.

Example scenario_binary64 :
  (evaluate_each [F1; F2; F3; F4] (fresh (getitem "recall")
     (Some [(getitem "precision", 0.5%float)]))).1
  = [Return false; Return false; Return false; Return true].
Proof. vm_compute. reflexivity. Qed.

(** The stop left [S3] as the baseline. *)
Example scenario_exact_baseline :
  best_dict (self (evaluate_each [S1; S2; S3; S4] (fresh (getitem "recall")
     (Some [(getitem "precision", (1 # 2)%Q)]))).2) = S3.
Proof. vm_compute. reflexivity. Qed.

(** A dictionary without the key read by the metric to optimize:
    the [KeyError] reaches the caller and the baseline stays. *)
Example missing_key_raises :
  evaluate_criteria (∅ : gmap string Q) (holding S3) =
    (Raise (KeyError "recall"),
     {| self := self (holding S3); calls := [CallOptimize ∅] |}).
Proof. vm_compute. reflexivity. Qed.

(** *** The stopping rule at the last step of the scenario *)

(** C1 at baseline [S3], current [S4]. *)
Lemma evaluate_criteria_stops_iff_witness :
  ∃ stop w',
    evaluate_criteria S4 (holding S3) = (Return stop, w') ∧
    (stop = true ↔
       score_lt (4 # 10)%Q (5 # 10)%Q = true ∧
       Forall (satisfied_on (best_dict (self (holding S3))))
              (satisfy_metrics (self (holding S3)))) ∧
    self w' = if stop then self (holding S3)
              else with_best_dict (self (holding S3)) S4.
Proof.
  apply (evaluate_criteria_stops_iff (holding S3) S4 (4 # 10)%Q (5 # 10)%Q).
  - vm_compute. reflexivity.
  - vm_compute. reflexivity.
  - vm_compute. reflexivity.
  - intros _. repeat constructor. exists (9 # 10)%Q. vm_compute. reflexivity.
Defined.

(** C3 after the stop on [S4], which recorded three invocations: [S1] is
    then judged as it would have been before, and a dictionary with recall
    0.1, again below the baseline's 0.5, stops again. *)
Lemma stop_keeps_baseline_frozen_witness :
  let w' := {| self := self (holding S3);
               calls := [CallOptimize S4; CallOptimize S3; CallSatisfy 0 S3] |} in
  self w' = self (holding S3) ∧
  (evaluate_criteria S1 w').1 = (evaluate_criteria S1 (holding S3)).1 ∧
  ∃ w'' cs,
    evaluate_criteria (scores 1%Q (1 # 10)%Q) w' = (Return true, w'') ∧
    self w'' = self (holding S3) ∧
    calls w'' = calls w' ++ CallOptimize (scores 1%Q (1 # 10)%Q) :: cs ∧
    Forall (λ c, call_arg c = best_dict (self (holding S3))) cs.
Proof.
  intros w'.
  destruct (stop_keeps_baseline_frozen (holding S3) S4 w')
    as (Hself & Hnext & Hagain).
  - vm_compute. reflexivity.
  - split; [exact Hself|]. split; [exact (proj1 (Hnext S1))|].
    apply (Hagain (scores 1%Q (1 # 10)%Q) (1 # 10)%Q (5 # 10)%Q).
    + vm_compute. reflexivity.
    + vm_compute. reflexivity.
    + vm_compute. reflexivity.
Defined.



(** C9 on the third step of the scenario: the recall fell from 0.7 to 0.5, so
    the metric to satisfy was invoked, after the two comparisons. *)
Lemma satisfy_invoked_only_after_decrease_witness :
  ∃ pre post,
    calls (evaluate_criteria S3 (holding S2)).2 = calls (holding S2) ++ pre ++ post ∧
    post ≠ [] ∧
    pre = [CallOptimize S3; CallOptimize (best_dict (self (holding S2)))] ∧
    ∃ a b, optimize_metric (self (holding S2)) S3 = Return a ∧
           optimize_metric (self (holding S2)) (best_dict (self (holding S2))) = Return b ∧
           score_lt a b = true.
Proof.
  destruct (satisfy_invoked_only_after_decrease (holding S2) S3)
    as (pre & post & Hcalls & Hpre & Hpost & Hdecr & _).
  exists pre, post.
  assert (Hne : post ≠ []).
  { intros ->. rewrite app_nil_r in Hcalls. vm_compute in Hcalls.
    rewrite <- Hcalls in Hpre. apply Forall_cons in Hpre as [_ Hpre].
    apply Forall_cons in Hpre as [_ Hpre]. apply Forall_cons in Hpre as [Habs _].
    discriminate Habs. }
  split; [exact Hcalls|]. split; [exact Hne|]. exact (proj2 (Hdecr Hne)).
Defined.

(** *** Empty dictionaries *)

(** Against C4 as stated: an empty first dictionary leaves the instance
    without a baseline, so the second call takes the no-baseline branch (it
    invokes no metric; the comparison would have raised [KeyError]).  And an
    instance holding [S1] that retains an empty dictionary holds no baseline
    afterwards. *)
Lemma empty_snapshot_leaves_no_baseline :
  let w1 := (evaluate_criteria (∅ : gmap string Q)
               (fresh (getitem "recall") None)).2 in
  ¬ has_baseline (self w1) ∧
  evaluate_criteria S1 w1 =
    (Return false, {| self := with_best_dict (self w1) S1; calls := [] |}) ∧
  ¬ has_baseline
      (self (evaluate_criteria (∅ : gmap string Q)
               {| self := with_best_dict (__init__ (get_or "recall" 1%Q) None) S1;
                  calls := [] |}).2).
Proof.
  cbv zeta. split; [|split].
  - vm_compute. discriminate.
  - vm_compute. reflexivity.
  - vm_compute. discriminate.
Qed.

(** C4 on the scenario. *)
Lemma nonempty_snapshots_keep_baseline_witness :
  let optimize : @metric Q Q exn := getitem "recall" in
  let w1 := (evaluate_criteria S1 (fresh optimize None)).2 in
  ¬ has_baseline (self (fresh optimize None)) ∧
  has_baseline (self w1) ∧
  ∀ k (x : gmap string Q), [S2; S3; S4] !! k = Some x →
    let wk := (evaluate_each (take k [S2; S3; S4]) w1).2 in
    has_baseline (self wk) ∧
    has_baseline (self (evaluate_criteria x wk).2) ∧
    ∃ cs,
      calls (evaluate_criteria x wk).2 = calls wk ++ CallOptimize x :: cs ∧
      ∀ a, optimize x = Return a →
           ∃ cs', cs = CallOptimize (best_dict (self wk)) :: cs'.
Proof.
  intros optimize.
  apply (nonempty_snapshots_keep_baseline optimize None S1 [S2; S3; S4]).
  - vm_compute. discriminate.
  - repeat constructor; vm_compute; discriminate.
Defined.

(** Against C6 as stated: with [lambda x: x.get("recall", 1)] to optimize and
    [{lambda x: x.get("precision", 1): 0.5}] to satisfy, the empty dictionary
    [A] scores 1 and satisfies the threshold, [B] scores 1/2 < 1, and yet the
    second call returns False. *)
Lemma decrease_after_empty_snapshot_does_not_stop :
  let optimize : @metric Q Q exn := get_or "recall" 1%Q in
  let satisfy := Some [(get_or "precision" 1%Q : @metric Q Q exn, (1 # 2)%Q)] in
  let A : gmap string Q := ∅ in
  let B : gmap string Q := scores (1 # 2)%Q (1 # 2)%Q in
  optimize A = Return 1%Q ∧
  optimize B = Return (1 # 2)%Q ∧
  score_lt (1 # 2)%Q 1%Q = true ∧
  Forall (satisfied_on A) (satisfy_metrics (__init__ optimize satisfy)) ∧
  (evaluate_each [A; B] (fresh optimize satisfy)).1 = [Return false; Return false].
Proof.
  cbv zeta. repeat split; try (vm_compute; reflexivity).
  repeat constructor. exists 1%Q. vm_compute. split; reflexivity.
Qed.

(** C6 on [S3] then [S4]. *)
Lemma decrease_after_satisfying_baseline_stops_witness :
  (evaluate_each [S3; S4]
     (fresh (getitem "recall") (Some [(getitem "precision", (1 # 2)%Q)]))).1
  = [Return false; Return true].
Proof.
  apply (decrease_after_satisfying_baseline_stops _ _ S3 S4 (5 # 10)%Q (4 # 10)%Q).
  - vm_compute. discriminate.
  - vm_compute. reflexivity.
  - vm_compute. reflexivity.
  - vm_compute. reflexivity.
  - repeat constructor. exists (9 # 10)%Q. vm_compute. split; reflexivity.
Defined.

(** C7 on recalls 0.5 < 0.6 < 0.7, with a precision threshold that every
    baseline meets. *)
Lemma strictly_increasing_never_stops_witness :
  (evaluate_each [S3; S1; S2]
     (fresh (getitem "recall") (Some [(getitem "precision", (1 # 10)%Q)]))).1
  = replicate 3 (Return false).
Proof.
  apply (strictly_increasing_never_stops _ _ [S3; S1; S2]
           [(5 # 10)%Q; (6 # 10)%Q; (7 # 10)%Q]).
  - exact Qltb_asym.
  - repeat constructor.
  - vm_compute. repeat split; reflexivity.
Defined.

(** C8 at baseline [S3]: with nothing to satisfy, [S4] (recall 0.4 < 0.5)
    stops. *)
Lemma empty_satisfy_set_stops_iff_decrease_witness :
  ∃ w', evaluate_criteria S4
          {| self := {| optimize_metric := getitem "recall";
                        satisfy_metrics := [];
                        best_dict := S3 |};
             calls := [] |}
        = (Return (score_lt (4 # 10)%Q (5 # 10)%Q), w').
Proof.
  destruct (empty_satisfy_set_stops_iff_decrease (getitem "recall") S3 [])
    as [_ Hiff].
  destruct (Hiff S4 (4 # 10)%Q (5 # 10)%Q) as (w' & Heval & _).
  - vm_compute. discriminate.
  - vm_compute. reflexivity.
  - vm_compute. reflexivity.
  - exists w'. exact Heval.
Defined.

End ExampleProps.

(** * Properties of the confidence formula *)

Module ConfidenceProps.
Import PredictionConfidence.

(** *** Element-wise, on any arithmetic *)

Section Elementwise.
Context {R : Type} `{Arith R}.

Lemma confidence_length (probabilities : list R) :
  length (binary_classification_confidence probabilities) = length probabilities.
Proof. apply length_map. Qed.

Lemma confidence_lookup (probabilities : list R) (i : nat) (p : R) :
  probabilities !! i = Some p →
  binary_classification_confidence probabilities !! i =
    Some (if geb p lit_0_5 then sub (mul lit_2 p) lit_1
          else sub lit_1 (mul lit_2 p)).
Proof.
  intros Hp. unfold binary_classification_confidence.
  change (List.map confidence probabilities) with (confidence <$> probabilities).
  by rewrite list_lookup_fmap, Hp.
Qed.
End Elementwise.

(** *** In exact arithmetic *)

Lemma Qle_bool_false (x y : Q) : Qle_bool x y = false → (y < x)%Q.
Proof.
  intros Hxy. destruct (Qlt_le_dec y x) as [?|Hle]; [done|].
  apply Qle_bool_iff in Hle. congruence.
Qed.

(** Case analysis on the test [p >= 0.5] of the formula. *)
Ltac confidence_case p :=
  let Hp := fresh "Hp" in
  unfold confidence at 1; cbn [geb Q_Arith lit_0_5 lit_1 lit_2 mul sub];
  destruct (Qle_bool (1 # 2) p) eqn:Hp;
  [apply Qle_bool_iff in Hp | apply Qle_bool_false in Hp].

Lemma confidence_exact_above (p : Q) :
  (1 # 2 <= p)%Q → (confidence p == 2 * p - 1)%Q.
Proof. intros Hge. confidence_case p; lra. Qed.

Lemma confidence_exact_below (p : Q) :
  (p < 1 # 2)%Q → (confidence p == 1 - 2 * p)%Q.
Proof. intros Hlt. confidence_case p; lra. Qed.

Lemma confidence_exact_symmetric (p : Q) :
  (confidence (1 - p) == confidence p)%Q.
Proof.
  destruct (Qlt_le_dec p (1 # 2)) as [Hlt|Hge].
  - rewrite (confidence_exact_below p Hlt), confidence_exact_above; lra.
  - rewrite (confidence_exact_above p Hge).
    destruct (Qlt_le_dec (1 - p) (1 # 2)) as [Hlt'|Hge'].
    + rewrite confidence_exact_below; lra.
    + rewrite confidence_exact_above; lra.
Qed.

Lemma confidence_exact_grows_above (p q : Q) :
  (1 # 2 <= p)%Q → (p < q)%Q → (confidence p < confidence q)%Q.
Proof.
  intros Hp Hpq.
  rewrite (confidence_exact_above p), (confidence_exact_above q); lra.
Qed.

Lemma confidence_exact_grows_below (p q : Q) :
  (q < p)%Q → (p <= 1 # 2)%Q → (confidence p < confidence q)%Q.
Proof.
  intros Hqp Hp. rewrite <- (confidence_exact_symmetric p).
  rewrite (confidence_exact_above (1 - p)), (confidence_exact_below q); lra.
Qed.

(** *** In binary64 *)

(** Against C10 as stated: on Python's floats the confidences of 0.3 and of
    0.7 differ by rounding, whether 0.7 is given or computed as [1 - 0.3].
    (The decimals stand for the nearest binary64 values, as in Python:
    [0x1.999999999999ap-2] for 0.4, [0x1.9999999999998p-2] for
    0.3999999999999999.) *)
Lemma confidence_binary64_not_symmetric :
  binary_classification_confidence [0.3; 0.7]%float
    = [0.4; 0.3999999999999999]%float ∧
  PrimFloat.sub 1 0.3 = 0.7%float ∧
  confidence (PrimFloat.sub 1 0.3) ≠ confidence 0.3%float.
Proof.
  split; [vm_compute; reflexivity|]. split; [vm_compute; reflexivity|].
  intros Heq.
  apply (f_equal (λ c, PrimFloat.eqb c 0.4)) in Heq.
  vm_compute in Heq. discriminate Heq.
Qed.

(** Where [p] and [1 - p] are both binary64 values the two confidences do
    agree: checked on the multiples of 1/1024 in [0, 1]. *)
Lemma confidence_binary64_symmetric_on_dyadics :
  forallb (λ k, PrimFloat.eqb (confidence (PrimFloat.sub 1 (dyadic k)))
                              (confidence (dyadic k)))
          (seq 0 1025) = true.
Proof. vm_compute. reflexivity. Qed.

(** *** The formula *)

(** C10, with the symmetry in exact arithmetic.
    [binary_classification_confidence] maps each element [p] of its list on
    its own to [2p - 1] when [p >= 0.5] and to [1 - 2p] otherwise, on floats
    as on any numbers.  Computed exactly, this confidence is the same for [p]
    and [1 - p], and it grows strictly as [p] moves away from 0.5, upwards or
    downwards. *)
Theorem binary_classification_confidence_symmetric_exact :
  (∀ (R : Type) (A : Arith R) (probabilities : list R),
     length (binary_classification_confidence probabilities) = length probabilities ∧
     ∀ i p, probabilities !! i = Some p →
            binary_classification_confidence probabilities !! i =
              Some (if geb p lit_0_5 then sub (mul lit_2 p) lit_1
                    else sub lit_1 (mul lit_2 p))) ∧
  (∀ p : Q, (1 # 2 <= p → confidence p == 2 * p - 1)%Q ∧
            (p < 1 # 2 → confidence p == 1 - 2 * p)%Q) ∧
  (∀ p : Q, (confidence (1 - p) == confidence p)%Q) ∧
  (∀ p q : Q, (1 # 2 <= p)%Q → (p < q)%Q → (confidence p < confidence q)%Q) ∧
  (∀ p q : Q, (q < p)%Q → (p <= 1 # 2)%Q → (confidence p < confidence q)%Q).
Proof.
  split; [|split; [|split; [|split]]].
  - intros R A probabilities. split.
    + apply confidence_length.
    + apply confidence_lookup.
  - intros p. split.
    + apply confidence_exact_above.
    + apply confidence_exact_below.
  - apply confidence_exact_symmetric.
  - apply confidence_exact_grows_above.
  - apply confidence_exact_grows_below.
Qed.

(** C10 on the probabilities 0.3, 0.7 and 0.9 taken exactly. *)
Lemma binary_classification_confidence_symmetric_exact_witness :
  binary_classification_confidence [(3 # 10)%Q; (7 # 10)%Q] !! 1%nat
    = Some (2 * (7 # 10) - 1)%Q ∧
  (confidence (1 - (3 # 10)) == confidence (3 # 10))%Q ∧
  (confidence (7 # 10) < confidence (9 # 10))%Q ∧
  (confidence (3 # 10) < confidence (1 # 10))%Q.
Proof.
  destruct binary_classification_confidence_symmetric_exact
    as (Hmap & _ & Hsym & Habove & Hbelow).
  split; [|split; [|split]].
  - apply (proj2 (Hmap Q Q_Arith [(3 # 10)%Q; (7 # 10)%Q]) 1%nat (7 # 10)%Q).
    reflexivity.
  - apply (Hsym (3 # 10)%Q).
  - apply (Habove (7 # 10)%Q (9 # 10)%Q); vm_compute; [discriminate | reflexivity].
  - apply (Hbelow (3 # 10)%Q (1 # 10)%Q); vm_compute; [reflexivity | discriminate].
Defined.

End ConfidenceProps.

(** * More on the early-stopping monitor *)

Module EarlyStoppingMore.
Import EarlyStopping TrainingLoop EarlyStoppingProps.

(** The five ways a call [evaluate_criteria d] on [w] can go, each with its
    equation [Heval]. *)
Ltac call_cases w d :=
  let a := fresh "a" in
  let b := fresh "b" in
  let e := fresh "e" in
  destruct (is_empty_dict (best_dict (self w))) eqn:Hbase;
  [ pose proof (evaluate_no_baseline w d Hbase) as Heval
  | destruct (optimize_metric (self w) d) as [a|e] eqn:Hcur;
    [ destruct (optimize_metric (self w) (best_dict (self w))) as [b|e] eqn:Hbest;
      [ destruct (score_lt a b) eqn:Hlt;
        [ pose proof (evaluate_decrease w d a b Hbase Hcur Hbest Hlt) as Heval
        | pose proof (evaluate_no_decrease w d a b Hbase Hcur Hbest Hlt) as Heval ]
      | pose proof (evaluate_baseline_raises w d a e Hbase Hcur Hbest) as Heval ]
    | pose proof (evaluate_current_raises w d e Hbase Hcur) as Heval ] ].

Section More.
Context {V T E : Type} `{Score T} `{PyException E}.
#[local] Abbreviation snapshot := (gmap string V).
#[local] Abbreviation world := (@world V T E).
Implicit Types (w : world) (d best : snapshot) (ds : list snapshot).
Implicit Types (items : list (@metric V T E * T)).

(** *** What a call retains *)

(** The baseline after a call is the call's dictionary if it returned False
    and the old baseline otherwise; a call returns True only on a baseline
    that satisfies every threshold. *)
Lemma evaluate_criteria_retains w d :
  best_dict (self (evaluate_criteria d w).2) =
    match (evaluate_criteria d w).1 with
    | Return false => d
    | _ => best_dict (self w)
    end.
Proof.
  call_cases w d; rewrite Heval; cbn [fst snd self best_dict]; try done.
  by destruct (all_satisfied_value _ _) as [[|]|].
Qed.

Lemma evaluate_criteria_true_inv w d :
  (evaluate_criteria d w).1 = Return true →
  has_baseline (self w) ∧
  Forall (satisfied_on (best_dict (self w))) (satisfy_metrics (self w)).
Proof.
  call_cases w d; rewrite Heval; cbn [fst]; try done.
  intros Hall. split; [done|]. by apply all_satisfied_value_true.
Qed.

Lemma last_retained_elem ds : ∀ (rs : list (result E bool)) (init : snapshot),
  last_retained init ds rs = init ∨ last_retained init ds rs ∈ ds.
Proof.
  induction ds as [|d ds IH]; intros rs init; cbn [last_retained]; [by left|].
  destruct rs as [|r rs]; [by left|].
  destruct (IH rs (match r with Return false => d | _ => init end)) as [->|Hin].
  - destruct r as [[|]|]; [by left | right; constructor | by left].
  - right. by constructor.
Qed.

Lemma evaluate_each_retains ds : ∀ w,
  best_dict (self (evaluate_each ds w).2) =
    last_retained (best_dict (self w)) ds (evaluate_each ds w).1.
Proof.
  induction ds as [|d ds IH]; intros w; [done|].
  rewrite evaluate_each_cons. cbn [fst snd last_retained].
  by rewrite IH, evaluate_criteria_retains.
Qed.

(** X1. After any sequence of calls the baseline is the dictionary of the
    latest call that returned False, and the baseline held before the
    sequence if no call did: a call that returned True or raised never
    supplies it.  So the baseline is always the initial one or one of the
    dictionaries passed in. *)
Theorem baseline_is_last_retained ds w :
  best_dict (self (evaluate_each ds w).2) =
    last_retained (best_dict (self w)) ds (evaluate_each ds w).1 ∧
  (best_dict (self (evaluate_each ds w).2) = best_dict (self w) ∨
   best_dict (self (evaluate_each ds w).2) ∈ ds).
Proof.
  split; [apply evaluate_each_retains|].
  rewrite evaluate_each_retains. apply last_retained_elem.
Qed.

(** *** When a sequence of calls cannot stop *)

Lemma unsatisfied_from ds : ∀ w,
  (has_baseline (self w) →
   ¬ Forall (satisfied_on (best_dict (self w))) (satisfy_metrics (self w))) →
  Forall (λ d, ¬ Forall (satisfied_on d) (satisfy_metrics (self w))) ds →
  Return true ∉ (evaluate_each ds w).1.
Proof.
  induction ds as [|d ds IH]; intros w Hbase Hds; [by apply not_elem_of_nil|].
  apply Forall_cons in Hds as [Hd Hds].
  rewrite evaluate_each_cons. cbn [fst]. apply not_elem_of_cons. split.
  - intros Hstop. symmetry in Hstop.
    destruct (evaluate_criteria_true_inv w d Hstop) as [Hb Hsat]. by apply Hbase.
  - destruct (evaluate_criteria_metrics w d) as [_ Hitems].
    apply IH; rewrite Hitems; [|done].
    unfold has_baseline. rewrite evaluate_criteria_retains.
    destruct (evaluate_criteria d w).1 as [[|]|]; auto.
Qed.

(** X2. If none of the dictionaries passed in satisfies every threshold, no
    call on a fresh instance returns True, however the optimized metric
    moves: stopping needs a retained dictionary that meets the thresholds. *)
Theorem never_stops_without_satisfying_dictionary (optimize : @metric V T E)
    (satisfy : option (list (@metric V T E * T))) ds :
  Forall (λ d, ¬ Forall (satisfied_on d)
                   (satisfy_metrics (__init__ optimize satisfy))) ds →
  Return true ∉ (evaluate_each ds (fresh optimize satisfy)).1.
Proof.
  intros Hds. apply unsatisfied_from; [|done]. by intros [=].
Qed.

Lemma never_decreasing_from ds : ∀ (vs : list T) w,
  Forall2 (λ d v, optimize_metric (self w) d = Return v) ds vs →
  never_decreasing vs →
  (∀ v, head vs = Some v → has_baseline (self w) →
        ∃ p, optimize_metric (self w) (best_dict (self w)) = Return p ∧
             score_lt v p = false) →
  (evaluate_each ds w).1 = replicate (length ds) (Return false).
Proof.
  induction ds as [|d ds IH]; intros vs w Hvs Hinc Hinv; [done|].
  inversion Hvs as [|? v ? vs' Hd Hvs']; subst.
  rewrite evaluate_each_cons. cbn [fst length replicate].
  assert (Hstep : evaluate_criteria d w =
                    (Return false,
                     {| self := with_best_dict (self w) d;
                        calls := calls (evaluate_criteria d w).2 |})).
  { destruct (is_empty_dict (best_dict (self w))) eqn:Hbase.
    - by rewrite evaluate_no_baseline.
    - destruct (Hinv v eq_refl Hbase) as (p & Hp & Hlt).
      by rewrite (evaluate_no_decrease w d v p Hbase Hd Hp Hlt). }
  rewrite Hstep. cbn [fst snd]. f_equal.
  apply (IH vs'); cbn [self optimize_metric best_dict]; [done| |].
  - destruct vs'; [done|]. apply Hinc.
  - intros v' Hv' _. exists v. split; [done|].
    destruct vs' as [|v'' vs'']; [done|]. injection Hv' as ->. apply Hinc.
Qed.

(** X3. Over dictionaries none of whose optimized scores is [<] the score
    before it, no call on a fresh instance returns True: each returns False
    and no metric to satisfy is invoked.  A score that merely stops
    improving, staying equal, does not stop the training. *)
Theorem never_decreasing_never_stops (optimize : @metric V T E)
    (satisfy : option (list (@metric V T E * T))) ds (vs : list T) :
  Forall2 (λ d v, optimize d = Return v) ds vs →
  never_decreasing vs →
  (evaluate_each ds (fresh optimize satisfy)).1 =
    replicate (length ds) (Return false).
Proof.
  intros Hvs Hinc. apply (never_decreasing_from ds vs); [done..|].
  by intros v _ [=].
Qed.

(** X4. The decision depends on the current dictionary only through its
    optimized score: two dictionaries on which the metric to optimize gives
    the same outcome get the same answer, and every metric to satisfy that
    is invoked is applied to the baseline held before the call, never to the
    current dictionary. *)
Theorem decision_uses_current_only_through_optimize w d1 d2 :
  optimize_metric (self w) d1 = optimize_metric (self w) d2 →
  (evaluate_criteria d1 w).1 = (evaluate_criteria d2 w).1 ∧
  ∃ cs, calls (evaluate_criteria d1 w).2 = calls w ++ cs ∧
        Forall (λ c, is_satisfy_call c = true →
                     call_arg c = best_dict (self w)) cs.
Proof.
  intros Hsame.
  call_cases w d1; rewrite Heval; rewrite Hsame in Hcur || idtac.
  - rewrite (evaluate_no_baseline w d2) by done. split; [done|].
    exists []. by rewrite app_nil_r.
  - rewrite (evaluate_decrease w d2 a b) by done. split; [done|].
    cbn [snd calls].
    exists (CallOptimize d1 :: CallOptimize (best_dict (self w)) ::
              all_satisfied_calls 0 (best_dict (self w)) (satisfy_metrics (self w))).
    split; [by rewrite <- !app_assoc|].
    do 2 (constructor; [done|]).
    eapply Forall_impl; [apply all_satisfied_calls_on_best | by intros c [_ ?] _].
  - rewrite (evaluate_no_decrease w d2 a b) by done. split; [done|].
    exists [CallOptimize d1; CallOptimize (best_dict (self w))].
    split; [by rewrite <- !app_assoc|]. by repeat constructor.
  - rewrite (evaluate_baseline_raises w d2 a e) by done. split; [done|].
    exists [CallOptimize d1; CallOptimize (best_dict (self w))].
    split; [by rewrite <- !app_assoc|]. by repeat constructor.
  - rewrite (evaluate_current_raises w d2 e) by done. split; [done|].
    exists [CallOptimize d1]. split; [done|]. by repeat constructor.
Qed.

(** *** The satisfaction check *)

Lemma all_satisfied_first_failure best
    (pre post : list (@metric V T E * T)) (f : @metric V T E) (th : T) : ∀ i,
  Forall (satisfied_on best) pre →
  ¬ satisfied_on best (f, th) →
  all_satisfied_value best (pre ++ (f, th) :: post) =
    match f best with
    | Return _ => Return false
    | Raise e => Raise (from_generator e)
    end ∧
  all_satisfied_calls i best (pre ++ (f, th) :: post) =
    (λ k, CallSatisfy k best) <$> seq i (S (length pre)).
Proof.
  induction pre as [|[g value] pre IH]; intros i Hpre Hfail.
  - cbn. destruct (f best) as [v|e] eqn:Hf; [|done].
    destruct (score_ge v th) eqn:Hge; [|done].
    destruct Hfail. by exists v.
  - apply Forall_cons in Hpre as [(v & Hg & Hge) Hpre]. cbn in Hg, Hge.
    cbn [app all_satisfied_value all_satisfied_calls length seq fmap list_fmap].
    rewrite Hg, Hge. destruct (IH (S i) Hpre Hfail) as [-> ->]. done.
Qed.

(** X5. The metrics to satisfy are checked in the order of the dictionary and
    the check ends at the first one that misses its threshold or raises: the
    result is False, or the exception as it leaves the generator (itself, or
    [RuntimeError] for a [StopIteration]), and the metrics after it are not
    invoked, so nothing they would return or raise matters. *)
Theorem first_failure_ends_satisfaction_check w
    (pre post : list (@metric V T E * T)) (f : @metric V T E) (th : T) :
  satisfy_metrics (self w) = pre ++ (f, th) :: post →
  Forall (satisfied_on (best_dict (self w))) pre →
  ¬ satisfied_on (best_dict (self w)) (f, th) →
  _metrics_satisfied w =
    (match f (best_dict (self w)) with
     | Return _ => Return false
     | Raise e => Raise (if is_StopIteration e
                         then generator_raised_StopIteration e else e)
     end,
     {| self := self w;
        calls := calls w ++
                 ((λ k, CallSatisfy k (best_dict (self w))) <$> seq 0 (S (length pre))) |}).
Proof.
  intros Hitems Hpre Hfail.
  unfold _metrics_satisfied, get_self, mbind, M_bind.
  rewrite all_satisfied_eq, Hitems.
  by destruct (all_satisfied_first_failure (best_dict (self w)) pre post f th 0
                 Hpre Hfail) as [-> ->].
Qed.

(** *** The training loop *)

Lemma training_loop_bound ds : ∀ w n w',
  training_loop ds w = (Return n, w') → n ≤ length ds.
Proof.
  induction ds as [|d ds IH]; intros w n w'; cbn [training_loop length].
  - intros [= <- _]. lia.
  - destruct (evaluate_criteria d w) as [[[|]|e] w1]; [intros [= <- _]; lia| |done].
    destruct (training_loop ds w1) as [[m|e] w2] eqn:Hloop; [|done].
    intros [= <- _]. apply IH in Hloop. lia.
Qed.

(** X6. The loop makes its calls in order and leaves at the first one that
    returns True or raises.  When it ends at step [n], the calls made are
    those on the first [n] dictionaries, all returned False but possibly the
    last, and either the last returned True or the dictionaries ran out;
    when it raises, the raising call came after calls that all returned
    False.  No dictionary after the last step is evaluated. *)
Theorem training_loop_leaves_at_first_stop ds : ∀ w,
  match (training_loop ds w).1 with
  | Return n =>
      n ≤ length ds ∧
      (training_loop ds w).2 = (evaluate_each (take n ds) w).2 ∧
      ((evaluate_each (take n ds) w).1 = replicate n (Return false) ∧ n = length ds ∨
       ∃ k, n = S k ∧
            (evaluate_each (take n ds) w).1 = replicate k (Return false) ++ [Return true])
  | Raise e =>
      ∃ k, k < length ds ∧
           (training_loop ds w).2 = (evaluate_each (take (S k) ds) w).2 ∧
           (evaluate_each (take (S k) ds) w).1 = replicate k (Return false) ++ [Raise e]
  end.
Proof.
  induction ds as [|d ds IH]; intros w; [cbn; auto|].
  cbn [training_loop]. destruct (evaluate_criteria d w) as [r w1] eqn:Hcall.
  destruct r as [[|]|e].
  - cbn [fst snd length]. split; [lia|].
    cbn [take]. rewrite evaluate_each_cons, Hcall. cbn. split; [done|].
    right. by exists 0.
  - specialize (IH w1).
    destruct (training_loop ds w1) as [[n|e] w2] eqn:Hloop; cbn [fst snd] in *.
    + destruct IH as (Hn & Hw2 & Hrs). split; [cbn; lia|].
      cbn [take]. rewrite evaluate_each_cons, Hcall. cbn [fst snd].
      split; [done|]. destruct Hrs as [[-> ->]|(k & -> & Hrs)].
      * by left.
      * right. exists (S k). cbn [take] in Hrs. by rewrite Hrs.
    + destruct IH as (k & Hk & Hw2 & Hrs). exists (S k). split; [cbn; lia|].
      cbn [take]. rewrite evaluate_each_cons, Hcall. cbn [fst snd].
      by rewrite Hrs.
  - cbn [fst snd]. exists 0. split; [cbn; lia|].
    cbn [take]. rewrite evaluate_each_cons, Hcall. done.
Qed.

(** X7. On a fresh instance the loop cannot end at its first step: the first
    call invokes no metric and returns False, so with two or more
    dictionaries to go through at least two steps are made before the loop
    ends or raises. *)
Theorem training_loop_makes_two_steps (optimize : @metric V T E)
    (satisfy : option (list (@metric V T E * T))) (d1 d2 : snapshot) ds n w' :
  training_loop (d1 :: d2 :: ds) (fresh optimize satisfy) = (Return n, w') →
  2 ≤ n ∧ n ≤ 2 + length ds.
Proof.
  cbn [training_loop]. unfold fresh. rewrite evaluate_no_baseline by done.
  destruct (evaluate_criteria d2 _) as [[[|]|e] w1]; [intros [= <- _]; lia| |done].
  destruct (training_loop ds w1) as [[m|e] w2] eqn:Hloop; [|done].
  intros [= <- _]. apply training_loop_bound in Hloop. lia.
Qed.

End More.

End EarlyStoppingMore.

(** * Properties of the ordinal encoding *)

Module OrdinalProps.
Import OrdinalRegression.

(** *** Rows *)

Lemma ordinal_row_length (label num_labels : Z) :
  length (ordinal_row label num_labels) =
    Z.to_nat label + Z.to_nat (num_labels - label - 1).
Proof. unfold ordinal_row. by rewrite length_app, !length_replicate. Qed.

Lemma ordinal_row_length_valid (label num_labels : Z) :
  (0 ≤ label < num_labels)%Z →
  length (ordinal_row label num_labels) = Z.to_nat (num_labels - 1).
Proof. intros Hl. rewrite ordinal_row_length. lia. Qed.

Lemma ordinal_row_lookup (label num_labels : Z) (j : nat) :
  j < length (ordinal_row label num_labels) →
  ordinal_row label num_labels !! j =
    Some (if (Z.of_nat j <? label)%Z then 1%Z else 0%Z).
Proof.
  rewrite ordinal_row_length. intros Hj. unfold ordinal_row.
  destruct (Z.ltb_spec (Z.of_nat j) label) as [Hlt|Hge].
  - rewrite lookup_app_l by (rewrite length_replicate; lia).
    apply lookup_replicate_2. lia.
  - rewrite lookup_app_r by (rewrite length_replicate; lia).
    apply lookup_replicate_2. rewrite length_replicate. lia.
Qed.



(** *** [torch.tensor] on a nested list *)

Lemma torch_tensor_rectangular {A : Type} (rows : list (list A)) (n : nat) :
  Forall (λ r, length r = n) rows → torch_tensor rows = Return rows.
Proof.
  intros Hrows. destruct rows as [|row rest]; [done|]. cbn.
  apply Forall_cons in Hrows as [Hrow Hrest].
  replace (forallb _ rest) with true; [done|].
  symmetry. apply forallb_forall. intros r Hr. apply Nat.eqb_eq.
  rewrite Forall_forall in Hrest. rewrite Hrow. apply Hrest.
  by apply list_elem_of_In.
Qed.


Lemma encode_ordinal_rectangular (labels : list Z) (num_labels : Z) (n : nat) :
  Forall (λ label, length (ordinal_row label num_labels) = n) labels →
  encode_ordinal labels num_labels =
    Return ((λ label, to_float <$> ordinal_row label num_labels) <$> labels).
Proof.
  intros Hlabels. unfold encode_ordinal.
  rewrite (torch_tensor_rectangular _ n).
  - f_equal. change (List.map ?f ?l) with (f <$> l).
    rewrite <- list_fmap_compose. done.
  - change (List.map ?f ?l) with (f <$> l). by apply Forall_fmap.
Qed.

(** *** Encoding *)

(** X8. For labels that all lie in [0, num_labels - 1], [encode_ordinal]
    returns a tensor with one row per label and [num_labels - 1] columns,
    whose entry [j] of the row of [label] is 1 when [j < label] and 0
    otherwise. *)
Theorem encode_ordinal_valid (labels : list Z) (num_labels : Z) :
  Forall (λ label, 0 ≤ label < num_labels)%Z labels →
  ∃ t, encode_ordinal labels num_labels = Return t ∧
       length t = length labels ∧
       ∀ i label, labels !! i = Some label →
         ∃ row, t !! i = Some row ∧
                length row = Z.to_nat (num_labels - 1) ∧
                ∀ j, j < length row →
                     row !! j = Some (if (Z.of_nat j <? label)%Z
                                      then 1%float else 0%float).
Proof.
  intros Hvalid. eexists. split.
  - apply (encode_ordinal_rectangular _ _ (Z.to_nat (num_labels - 1))).
    eapply Forall_impl; [exact Hvalid|]. intros label Hl.
    by apply ordinal_row_length_valid.
  - split; [by rewrite length_fmap|]. intros i label Hi.
    exists (to_float <$> ordinal_row label num_labels).
    rewrite list_lookup_fmap, Hi. split; [done|].
    rewrite length_fmap. split.
    + apply ordinal_row_length_valid. rewrite Forall_forall in Hvalid.
      eapply Hvalid, list_elem_of_lookup_2, Hi.
    + intros j Hj. rewrite list_lookup_fmap, ordinal_row_lookup by done.
      cbn. by destruct (Z.of_nat j <? label)%Z.
Qed.


(** X10. A batch whose labels are all the same label outside the range is
    encoded without complaint, with the wrong number of columns: a label
    [>= num_labels] gives [label] ones, a negative label gives
    [num_labels - label - 1] zeros. *)
Theorem encode_ordinal_does_not_validate (label num_labels : Z) (k : nat) :
  ((num_labels ≤ label)%Z →
   encode_ordinal (replicate k label) num_labels =
     Return (replicate k (replicate (Z.to_nat label) 1%float))) ∧
  ((label < 0)%Z →
   encode_ordinal (replicate k label) num_labels =
     Return (replicate k (replicate (Z.to_nat (num_labels - label - 1)) 0%float))).
Proof.
  assert (Henc : encode_ordinal (replicate k label) num_labels =
                   Return (replicate k (to_float <$> ordinal_row label num_labels))).
  { rewrite (encode_ordinal_rectangular _ _
               (length (ordinal_row label num_labels))).
    - by rewrite fmap_replicate.
    - by apply Forall_replicate. }
  rewrite Henc. unfold ordinal_row. split; intros Hl; do 2 f_equal.
  - replace (Z.to_nat (num_labels - label - 1)) with 0 by lia.
    cbn [replicate]. by rewrite app_nil_r, fmap_replicate.
  - replace (Z.to_nat label) with 0 by lia.
    cbn [replicate app]. by rewrite fmap_replicate.
Qed.

(** *** Decoding *)

(** Reads every [List.map] of the goal as stdpp's [<$>]. *)
Ltac fmap_view := repeat change (List.map ?f ?l) with (f <$> l).

Section DecodeProps.
Variable sigmoid : float → float.

(** The label decoded from one row of logits. *)
Lemma decode_ordinal_lookup (logits : list (list float)) (i : nat) :
  prediction (decode_ordinal sigmoid logits) !! i =
    (λ row, foldr Z.add 0%Z (binarize <$> (sigmoid <$> row))) <$> logits !! i.
Proof.
  unfold decode_ordinal. cbn [prediction].
  fmap_view.
  rewrite !list_lookup_fmap. by destruct (logits !! i).
Qed.

Lemma binarize_sum_bounds (ps : list float) :
  (0 ≤ foldr Z.add 0%Z (binarize <$> ps) ≤ Z.of_nat (length ps))%Z.
Proof.
  induction ps as [|p ps IH]; [done|].
  cbn [fmap list_fmap foldr length]. unfold binarize at 1 3.
  destruct (PrimFloat.ltb 0.5 p); lia.
Qed.

Lemma binarize_sum_perm (ps qs : list float) :
  ps ≡ₚ qs →
  foldr Z.add 0%Z (binarize <$> ps) = foldr Z.add 0%Z (binarize <$> qs).
Proof.
  induction 1 as [|p ps qs _ IH|p q ps|ps qs rs _ IH1 _ IH2];
    cbn [fmap list_fmap foldr]; [done| |lia|congruence].
  by rewrite IH.
Qed.

(** X11. [decode_ordinal] predicts one label per row of logits, and each
    predicted label lies between 0 and the number of columns: with the
    [N - 1] outputs of an [N]-class model, in [0, N - 1]. *)
Theorem decode_ordinal_in_range (logits : list (list float)) :
  length (prediction (decode_ordinal sigmoid logits)) = length logits ∧
  length (probability (decode_ordinal sigmoid logits)) = length logits ∧
  ∀ i row, logits !! i = Some row →
    ∃ label, prediction (decode_ordinal sigmoid logits) !! i = Some label ∧
             (0 ≤ label ≤ Z.of_nat (length row))%Z.
Proof.
  split; [|split].
  - unfold decode_ordinal. cbn [prediction]. by rewrite !List.length_map.
  - unfold decode_ordinal. cbn [probability]. by rewrite List.length_map.
  - intros i row Hi. rewrite decode_ordinal_lookup, Hi. eexists. split; [done|].
    rewrite <- (length_fmap sigmoid row). apply binarize_sum_bounds.
Qed.

(** X12. The predicted label is the number of outputs above 0.5 wherever
    they stand in the row: reordering the logits of a row changes no
    prediction, so an output vector that is not monotone (a later output
    above 0.5 after an earlier one below) is decoded like a monotone one. *)
Theorem decode_ordinal_ignores_order (logits logits' : list (list float)) :
  Forall2 (λ row row', row ≡ₚ row') logits logits' →
  prediction (decode_ordinal sigmoid logits) =
    prediction (decode_ordinal sigmoid logits').
Proof.
  intros Hperm. unfold decode_ordinal. cbn [prediction].
  fmap_view.
  induction Hperm as [|row row' logits logits' Hrow _ IH]; [done|].
  cbn [fmap list_fmap]. cbn [fmap list_fmap] in IH. rewrite IH. f_equal.
  apply binarize_sum_perm. by apply fmap_Permutation.
Qed.



End DecodeProps.

End OrdinalProps.

(** * More on the confidence formula *)

Module ConfidenceMore.
Import PredictionConfidence ConfidenceDocstring ConfidenceProps.

(** X14. Computed exactly, the confidence is never negative, it is at most 1
    exactly for the probabilities in [0, 1], it is 0 only at the threshold
    0.5 and 1 only at 0 and at 1. *)
Theorem confidence_exact_range (p : Q) :
  (0 <= confidence p)%Q ∧
  (confidence p <= 1 ↔ 0 <= p ∧ p <= 1)%Q ∧
  (confidence p == 0 ↔ p == 1 # 2)%Q ∧
  (confidence p == 1 ↔ p == 0 ∨ p == 1)%Q.
Proof.
  destruct (Qlt_le_dec p (1 # 2)) as [Hlt|Hge].
  - rewrite (confidence_exact_below p Hlt).
    split; [lra|]. split; [split; lra|]. split; [split; lra|].
    split; [intros Hone; left; lra | intros [Hp|Hp]; rewrite Hp in *; lra].
  - rewrite (confidence_exact_above p Hge).
    split; [lra|]. split; [split; lra|]. split; [split; lra|].
    split; [intros Hone; right; lra | intros [Hp|Hp]; rewrite Hp in *; lra].
Qed.

(** X15. The formula in the docstring is not the one computed: with its two
    branches the other way round it gives the confidence with the opposite
    sign, so the two agree at 0.5 only. *)
Theorem docstring_formula_is_negated (p : Q) :
  (docstring_confidence p == - confidence p)%Q ∧
  (docstring_confidence p == confidence p ↔ p == 1 # 2)%Q.
Proof.
  assert (Hneg : (docstring_confidence p == - confidence p)%Q).
  { unfold docstring_confidence, Qltb.
    destruct (Qle_bool (1 # 2) p) eqn:Hp; cbn [negb].
    - apply Qle_bool_iff in Hp. rewrite (confidence_exact_above p Hp). lra.
    - apply Qle_bool_false in Hp. rewrite (confidence_exact_below p Hp). lra. }
  split; [done|]. rewrite Hneg.
  destruct (Qlt_le_dec p (1 # 2)) as [Hlt|Hge].
  - rewrite (confidence_exact_below p Hlt). split; lra.
  - rewrite (confidence_exact_above p Hge). split; lra.
Qed.

End ConfidenceMore.

(** * The further properties on examples *)

Module MoreExamples.
Import EarlyStopping TrainingLoop Example OrdinalRegression.
Import EarlyStoppingMore OrdinalProps.

(** The loop on the four iterations of the scenario ends at step 4. *)
Example training_loop_scenario :
  (training_loop [S1; S2; S3; S4]
     (fresh (getitem "recall") (Some [(getitem "precision", (1 # 2)%Q)]))).1
  = Return 4.
Proof. vm_compute. reflexivity. Qed.

(** X2 with a precision threshold of 0.95, which no dictionary of the
    scenario meets. *)
Lemma never_stops_without_satisfying_dictionary_witness :
  (evaluate_each [S1; S2; S3; S4]
     (fresh (getitem "recall") (Some [(getitem "precision", (95 # 100)%Q)]))).1
  = replicate 4 (Return false) ∧
  Return true ∉
    (evaluate_each [S1; S2; S3; S4]
       (fresh (getitem "recall") (Some [(getitem "precision", (95 # 100)%Q)]))).1.
Proof.
  split; [vm_compute; reflexivity|].
  apply (never_stops_without_satisfying_dictionary (getitem "recall")
           (Some [(getitem "precision", (95 # 100)%Q)]) [S1; S2; S3; S4]).
  repeat constructor; intros Hall; apply Forall_cons in Hall as [(v & Hv & Hge) _];
    vm_compute in Hv; injection Hv as <-; vm_compute in Hge; discriminate Hge.
Defined.

(** X3 on recalls 0.6, 0.6, 0.7: a plateau, then a rise. *)
Lemma never_decreasing_never_stops_witness :
  (evaluate_each [S1; S1; S2]
     (fresh (getitem "recall") (Some [(getitem "precision", (1 # 2)%Q)]))).1
  = replicate 3 (Return false).
Proof.
  apply (never_decreasing_never_stops _ _ [S1; S1; S2]
           [(6 # 10)%Q; (6 # 10)%Q; (7 # 10)%Q]).
  - repeat constructor.
  - vm_compute. repeat split; reflexivity.
Defined.

(** X4 at baseline [S3]: [S4] and a dictionary with the same recall 0.4 but
    a precision of 0.9 get the same answer. *)
Lemma decision_uses_current_only_through_optimize_witness :
  (evaluate_criteria S4 (holding S3)).1 =
    (evaluate_criteria (scores (9 # 10)%Q (4 # 10)%Q) (holding S3)).1 ∧
  ∃ cs, calls (evaluate_criteria S4 (holding S3)).2 = calls (holding S3) ++ cs ∧
        Forall (λ c, is_satisfy_call c = true →
                     call_arg c = best_dict (self (holding S3))) cs.
Proof.
  apply (decision_uses_current_only_through_optimize (holding S3) S4
           (scores (9 # 10)%Q (4 # 10)%Q)).
  vm_compute. reflexivity.
Defined.

(** X5 at baseline [S2], whose precision 0.4 misses the threshold: the second
    metric, which would raise [KeyError] on [S2], is not invoked. *)
Lemma first_failure_ends_satisfaction_check_witness :
  let w : @world Q Q exn :=
    {| self := with_best_dict
                 (__init__ (getitem "recall")
                    (Some [(getitem "precision", (1 # 2)%Q);
                           (getitem "f1", (1 # 2)%Q)])) S2;
       calls := [] |} in
  getitem "f1" S2 = Raise (KeyError "f1") ∧
  _metrics_satisfied w =
    (Return false, {| self := self w; calls := [CallSatisfy 0 S2] |}).
Proof.
  intros w. split; [vm_compute; reflexivity|].
  apply (first_failure_ends_satisfaction_check w [] [(getitem "f1", (1 # 2)%Q)]
           (getitem "precision") (1 # 2)%Q).
  - reflexivity.
  - constructor.
  - intros (v & Hv & Hge). vm_compute in Hv. injection Hv as <-.
    vm_compute in Hge. discriminate Hge.
Defined.

(** X7 on the scenario. *)
Lemma training_loop_makes_two_steps_witness :
  2 ≤ 4 ∧ 4 ≤ 2 + length [S3; S4].
Proof.
  apply (training_loop_makes_two_steps (getitem "recall")
           (Some [(getitem "precision", (1 # 2)%Q)]) S1 S2 [S3; S4] 4
           (training_loop [S1; S2; S3; S4]
              (fresh (getitem "recall") (Some [(getitem "precision", (1 # 2)%Q)]))).2).
  vm_compute. reflexivity.
Defined.

(** X8 on the labels of the module's example: classes 2, 0 and 1 of 3. *)
Lemma encode_ordinal_valid_witness :
  encode_ordinal [2; 0; 1]%Z 3 =
    Return [[1; 1]; [0; 0]; [1; 0]]%float ∧
  ∃ t, encode_ordinal [2; 0; 1]%Z 3 = Return t ∧
       length t = 3 ∧
       ∀ i label, [2; 0; 1]%Z !! i = Some label →
         ∃ row, t !! i = Some row ∧
                length row = Z.to_nat (3 - 1) ∧
                ∀ j, j < length row →
                     row !! j = Some (if (Z.of_nat j <? label)%Z
                                      then 1%float else 0%float).
Proof.
  split; [vm_compute; reflexivity|].
  apply (encode_ordinal_valid [2; 0; 1]%Z 3).
  repeat constructor; lia.
Defined.


(** X10 on class 3 of 3, twice, and on class -1. *)
Lemma encode_ordinal_does_not_validate_witness :
  encode_ordinal [3; 3]%Z 3 = Return [[1; 1; 1]; [1; 1; 1]]%float ∧
  encode_ordinal [-1]%Z 3 = Return [[0; 0; 0]]%float.
Proof.
  split.
  - apply (proj1 (encode_ordinal_does_not_validate 3 3 2)). lia.
  - apply (proj2 (encode_ordinal_does_not_validate (-1) 3 1)). lia.
Defined.

(** X11 on the logits of the module's example. *)
Lemma decode_ordinal_in_range_witness :
  prediction (decode_ordinal softsign_sigmoid
                [[-0.05; -0.61]; [0.02; -0.2]; [0.25; 0.10]]%float) = [0; 1; 2]%Z ∧
  ∃ label,
    prediction (decode_ordinal softsign_sigmoid
                  [[-0.05; -0.61]; [0.02; -0.2]; [0.25; 0.10]]%float) !! 1
      = Some label ∧
    (0 ≤ label ≤ Z.of_nat (length [0.02; -0.2]%float))%Z.
Proof.
  split; [vm_compute; reflexivity|].
  apply (proj2 (proj2 (decode_ordinal_in_range softsign_sigmoid
                         [[-0.05; -0.61]; [0.02; -0.2]; [0.25; 0.10]]%float)) 1).
  reflexivity.
Defined.

(** X12 on a row with its second output only above 0.5. *)
Lemma decode_ordinal_ignores_order_witness :
  prediction (decode_ordinal softsign_sigmoid [[-2; 3]]%float) =
    prediction (decode_ordinal softsign_sigmoid [[3; -2]]%float).
Proof.
  apply (decode_ordinal_ignores_order softsign_sigmoid [[-2; 3]]%float [[3; -2]]%float).
  repeat constructor.
Defined.


End MoreExamples.
